(** * train_CNN_IMDB.py: the training / evaluation script of NLP-CNN

    A shallow embedding of [python/train_CNN_IMDB.py].  The script is a
    straight-line module body with one top-level [if training == True:]
    whose two arms are the training pipeline and the evaluation path.
    Everything numerical is done by numpy, keras, gensim and the two
    helper modules [data_helpers] and [w2v]; those calls are kept
    abstract (class [Externals]): each of them may raise, and the calls
    of numpy's generator, of [train_word2vec] and of Keras take the
    state of numpy's global generator and return the state they leave
    it in.  What is modelled is what the script itself decides: the
    dispatch on [model_variation], the joint shuffle, the assembly of
    the layer graph, the names of the files written, the order of the
    effects and the binding of module-level names.  The file is
    Python 2 (it has the statement [print pred]). *)

From Stdlib Require Import ZArith QArith_base DecimalString.
From Stdlib Require DecimalZ DecimalPos.
From stdpp Require Import gmap strings list.

Local Close Scope Q_scope.
Set Warnings "-register-all".
Local Open Scope nat_scope.

(** ** Python values used by the script *)

(** Exceptions the script can meet.  [LibraryError] stands for whatever an
    external call raises that the script does not name itself. *)
Inductive exn :=
| ValueError (msg : string)
| IndexError
| KeyError (key : string)
| NameError (name : string)
| TypeError
| LibraryError (msg : string).

Inductive result (A : Type) :=
| Ok (a : A)
| Raise (e : exn).
Arguments Ok {A} a.
Arguments Raise {A} e.

Definition is_ok {A} (r : result A) : bool :=
  match r with Ok _ => true | Raise _ => false end.

Definition of_option {A} (e : exn) (o : option A) : result A :=
  match o with Some a => Ok a | None => Raise e end.

Definition rbind {A B} (r : result A) (f : A → result B) : result B :=
  match r with Ok a => f a | Raise e => Raise e end.

(** [for ...: out.append(f(v))] over a list, stopping at the first
    exception. *)
Fixpoint rmap {A B} (f : A → result B) (l : list A) : result (list B) :=
  match l with
  | [] => Ok []
  | a :: l' => rbind (f a) (λ b, rbind (rmap f l') (λ bs, Ok (b :: bs)))
  end.

(** A float is carried as the rational its literal denotes; the script
    never computes with one. *)
Definition float := Q.

Definition vector := list float.
Definition matrix := list vector.

(** [x] is a 2-D integer array of token ids as [load_data] returns it, and
    a 3-D float array after the [CNN-static] rewrite. *)
Inductive xdata :=
| XIds (rows : list (list nat))
| XVecs (rows : list (list vector)).

(** One-hot label rows: a 2-D array with at least one column. *)
Definition ydata := list (list Z).

(** [str(n)] and [{:d}] for a Python int. *)
Definition str (n : Z) : string := NilZero.string_of_int (Z.to_int n).

(** ** The numpy operations the script applies itself *)

(** [np.arange(n)] *)
Definition arange (n : nat) : list nat := seq 0 n.

(** [a[idx]] with an integer index array (non-negative indices): row
    [idx[k]] of [a] for each [k]; an index past the end raises. *)
Definition np_take {A} (a : list A) (idx : list nat) : result (list A) :=
  rmap (λ i, of_option IndexError (a !! i)) idx.

Definition x_len (x : xdata) : nat :=
  match x with XIds r => length r | XVecs r => length r end.

Definition x_take (x : xdata) (idx : list nat) : result xdata :=
  match x with
  | XIds r => rbind (np_take r idx) (λ r', Ok (XIds r'))
  | XVecs r => rbind (np_take r idx) (λ r', Ok (XVecs r'))
  end.

(** [len(row)] for each row of [x]. *)
Definition x_row_lens (x : xdata) : list nat :=
  match x with XIds r => length <$> r | XVecs r => length <$> r end.

(** Row [j] of [x], whatever its element type: used to say which
    original example a shuffled row is. *)
Inductive xrow :=
| RowIds (r : list nat)
| RowVecs (r : list vector).

Definition x_row (x : xdata) (j : nat) : option xrow :=
  match x with
  | XIds r => RowIds <$> r !! j
  | XVecs r => RowVecs <$> r !! j
  end.

(** [row.argmax()]: index of the first maximal entry; numpy raises on an
    empty row. *)
Fixpoint argmax_from (i best_i : nat) (best : Z) (row : list Z) : nat :=
  match row with
  | [] => best_i
  | v :: row' =>
      if (best <? v)%Z then argmax_from (S i) i v row'
      else argmax_from (S i) best_i best row'
  end.

Definition argmax (row : list Z) : result nat :=
  match row with
  | [] => Raise (ValueError "attempt to get argmax of an empty sequence")
  | v :: row' => Ok (argmax_from 1 0 v row')
  end.

(** [y.argmax(axis=1)] on an array with at least one column: one index
    per row.  On an array without rows numpy returns an empty array
    when the array is 2-D with a column and raises otherwise; the list
    of rows cannot tell the two apart and is read as the former. *)
Definition argmax_rows (y : ydata) : result (list nat) := rmap argmax y.

(** [max(len(x) for x in x_shuffled)]: Python's [max] raises on an empty
    sequence. *)
Definition max_len (lens : list nat) : result nat :=
  match lens with
  | [] => Raise (ValueError "max() arg is an empty sequence")
  | n :: lens' => Ok (foldl Nat.max n lens')
  end.

(** [w[x]]: each token id of [x] replaced by row [id] of the matrix. *)
Definition embed_ids (w : matrix) (ids : list (list nat)) : result (list (list vector)) :=
  rmap (λ row, np_take w row) ids.

(** [embedding_weights[0][x]] with the integer array [x] of
    [load_data]. *)
Definition rewrite_static (embedding_weights : list matrix) (x : list (list nat)) : result xdata :=
  rbind (of_option IndexError (embedding_weights !! 0)) (λ w,
    rbind (embed_ids w x) (λ v, Ok (XVecs v))).

(** [a[0:n]] on a sequence. *)
Definition slice0 {A} (a : list A) (n : Z) : list A :=
  if (n <? 0)%Z then firstn (Z.to_nat (Z.of_nat (length a) + n)) a
  else firstn (Z.to_nat n) a.

(** ** Keras objects the script builds *)

(** A node of the functional graph: each constructor is the layer call
    of the same name applied to its input tensor(s), with the keyword
    arguments the script passes. *)
Inductive tensor :=
| Input (shape : list Z)
| Convolution1D (nb_filter filter_length : Z) (border_mode activation : string)
    (subsample_length : Z) (inp : tensor)
| MaxPooling1D (pool_length : Z) (inp : tensor)
| Flatten (inp : tensor)
| Merge (mode : string) (inps : list tensor).

(** [Model(input=..., output=...)] *)
Record graph_model := Model { g_input : tensor; g_output : tensor }.

(** What [model.add] receives. *)
Inductive layer :=
| Embedding (input_dim output_dim input_length : Z) (weights : option (list matrix))
| Dropout (p : float) (input_shape : option (list Z))
| Graph (g : graph_model)
| Dense (output_dim : Z)
| Activation (name : string).

(** A [Sequential] model: the layers added so far, in order, and the
    arguments of [compile] once it has been called. *)
Record sequential := Sequential {
  layers : list layer;
  compiled : option (string * string * list string)
}.

Definition add (m : sequential) (l : layer) : sequential :=
  Sequential (layers m ++ [l]) (compiled m).

Definition compile (m : sequential) (loss optimizer : string) (metrics : list string) : sequential :=
  Sequential (layers m) (Some (loss, optimizer, metrics)).

Definition is_embedding (l : layer) : bool :=
  match l with Embedding _ _ _ _ => true | _ => false end.

(** A call into Keras that builds something.  It may raise (a shape
    that cannot be inferred, initial weights of the wrong shape) and it
    may draw initial weights from numpy's global generator. *)
Inductive keras_call :=
| KTensor (t : tensor)
| KModel (g : graph_model)
| KSequential
| KAdd (m : sequential) (l : layer)
| KCompile (m : sequential) (loss optimizer : string) (metrics : list string).

(** ** Effects *)

(** What the run does to the outside, in the order it does it. *)
Inductive event :=
| EPrint (s : string)
| EPrintInts (v : list Z)
| ELoadData (pos neg : string)
| ETrainWord2Vec (variation : string) (num_features min_word_count context : Z)
| EWrite (path content : string)
| EFit (m : sequential) (x : xdata) (y : list nat) (batch_size nb_epoch : Z)
    (validation_split : float)
| ESaveWeights (m : sequential) (path : string)
| ELoadDataAndLabels (pos neg : string)
| EWord2VecLoad (path : string)
| ERead (path : string)
| EModelFromJson (json : string)
| ELoadWeights (path : string)
| EPadSentences (sequence_length : option Z)
| EPredictClasses (x : list vector) (batch_size : Z)
| EConfusionMatrix (l pred : list Z)
| EShowConfusionMatrix (l pred : list Z).

(** The value a module-level name is bound to, as far as a later
    reference by name needs it. *)
Inductive pyobj :=
| PInt (n : Z)
| PStr (s : string)
| PInts (a : list Z)
| PObj.

(** The calls that leave the script: numpy's global generator, the
    helper modules [data_helpers] and [w2v], keras, gensim, the file
    system and sklearn.  A call either returns or raises.  Every Keras
    call is given the state of numpy's generator and returns the state
    it leaves it in; [keras_build] stands for the calls that build
    layers, tensors and models ([keras_call]). *)
Class Externals := {
  rng_state : Type;
  np_seed : Z → rng_state;
  np_permutation : rng_state → list nat → list nat * rng_state;
  load_data : string → string →
    result (list (list nat) * ydata * gmap string nat * list string);
  train_word2vec : rng_state → list (list nat) → list string → string → Z → Z → Z →
    result (list matrix) * rng_state;
  keras_build : rng_state → keras_call → result unit * rng_state;
  to_json : rng_state → sequential → result string * rng_state;
  file_write : string → string → result unit;
  fit : rng_state → sequential → xdata → list nat → Z → Z → float →
    result unit * rng_state;
  save_weights : rng_state → sequential → string → result unit * rng_state;
  load_data_and_labels : string → string → result (list (list string) * ydata);
  word2vec_load : string → result (gmap string vector);
  file_read : string → result string;
  model_from_json : rng_state → string → result sequential * rng_state;
  load_weights : rng_state → sequential → string → result unit * rng_state;
  model_input_shape : sequential → list (option Z);
  pad_sentences : list (list string) → option Z → result (list (list string));
  predict_classes : rng_state → sequential → list vector → Z →
    result (list Z) * rng_state;
  confusion_matrix : list Z → list Z → result unit;
  show_confusion_matrix : list Z → list Z → result unit
}.

(** The constants the script fixes at its top and in its "Parameters"
    block. *)
Record config := Config {
  model_variation : string;
  training : bool;
  embedding_dim : Z;
  filter_sizes : list Z;
  num_filters : Z;
  dropout_prob : float * float;
  hidden_dims : Z;
  batch_size : Z;
  num_epochs : Z;
  val_split : float;
  min_word_count : Z;
  context : Z
}.

(** The values in the file as it stands. *)
Definition script_config : config := {|
  model_variation := "CNN-non-static";
  training := true;
  embedding_dim := 100;
  filter_sizes := [3; 4]%Z;
  num_filters := 150;
  dropout_prob := ((1 # 4)%Q, (1 # 2)%Q);
  hidden_dims := 150;
  batch_size := 32;
  num_epochs := 7;
  val_split := (1 # 10)%Q;
  min_word_count := 1;
  context := 10
|}.

(** Names bound by the [import] statements, [classes] and the three
    [def]s, before [model_variation] is assigned. *)
Definition module_names : list string :=
  ["np"; "data_helpers"; "train_word2vec"; "Sequential"; "Model"; "Activation";
   "Dense"; "Dropout"; "Embedding"; "Flatten"; "Input"; "Merge"; "Convolution1D";
   "MaxPooling1D"; "model_from_json"; "confusion_matrix"; "plt"; "metrics"; "os";
   "word2vec"; "classes"; "plot_confusion_matrix"; "show_confusion_matrix";
   "test_network"].

Section Script.
Context `{Ext : Externals}.

(** ** The state of a run and its monad *)

(** The module namespace, numpy's global generator and the effects so
    far. *)
Record state := State {
  ns : gmap string pyobj;
  rng : rng_state;
  out : list event
}.

(** A statement: it changes the state and either yields a value or
    raises; the state reached when it raises is kept. *)
Definition M (A : Type) : Type := state → state * result A.

#[export] Instance M_ret : MRet M := λ A a s, (s, Ok a).

#[export] Instance M_bind : MBind M := λ A B f m s,
  match m s with
  | (s', Ok a) => f a s'
  | (s', Raise e) => (s', Raise e)
  end.

Definition raise {A} (e : exn) : M A := λ s, (s, Raise e).

Definition lift {A} (r : result A) : M A := λ s, (s, r).

Definition emit (e : event) : M unit :=
  λ s, (State (ns s) (rng s) (out s ++ [e]), Ok ()).

(** An external call: it is made, then returns or raises. *)
Definition call {A} (e : event) (r : result A) : M A := emit e ;; lift r.

(** [name = v] at module level. *)
Definition assign (name : string) (v : pyobj) : M unit :=
  λ s, (State (<[name := v]> (ns s)) (rng s) (out s), Ok ()).

Definition assign_all (bs : list (string * pyobj)) : M unit :=
  λ s, (State (foldl (λ m b, <[b.1 := b.2]> m) (ns s) bs) (rng s) (out s), Ok ()).

(** A reference to a module-level name. *)
Definition name_ref (name : string) : M pyobj :=
  λ s, (s, of_option (NameError name) (ns s !! name)).

(** [np.random.seed(n)] *)
Definition seed (n : Z) : M unit :=
  λ s, (State (ns s) (np_seed n) (out s), Ok ()).

(** [np.random.permutation(a)] *)
Definition permutation (a : list nat) : M (list nat) :=
  λ s, let '(p, r) := np_permutation (rng s) a in (State (ns s) r (out s), Ok p).

(** A call that draws from numpy's global generator. *)
Definition call_rng {A} (e : event) (f : rng_state → result A * rng_state) : M A :=
  emit e ;; ((λ s, let '(a, r) := f (rng s) in (State (ns s) r (out s), a)) : M A).

(** A call that may raise and may draw from the generator, and is not
    recorded as an effect. *)
Definition draw {A} (f : rng_state → result A * rng_state) : M A :=
  λ s, let '(a, r) := f (rng s) in (State (ns s) r (out s), a).

(** A building call into Keras. *)
Definition keras (c : keras_call) : M unit := draw (λ r, keras_build r c).

(** The names lines 163-180 bind. *)
Definition graph_names : list string :=
  ["graph_in"; "convs"; "fsz"; "conv"; "pool"; "flatten"; "out"; "graph"].

(** ** The training branch ([if training == True:]) *)

(** The "Parameters" block: one assignment per constant. *)
Definition bind_parameters (cfg : config) : M unit :=
  assign_all [("embedding_dim", PInt (embedding_dim cfg)); ("filter_sizes", PObj);
              ("num_filters", PInt (num_filters cfg)); ("dropout_prob", PObj);
              ("hidden_dims", PInt (hidden_dims cfg)); ("batch_size", PInt (batch_size cfg));
              ("num_epochs", PInt (num_epochs cfg)); ("val_split", PObj);
              ("min_word_count", PInt (min_word_count cfg)); ("context", PInt (context cfg))].

Definition neg_train_path : string := "./data/imdb_train.neg".
Definition pos_train_path : string := "./data/imdb_train.pos".

(** Lines 130-134. *)
Definition load_training_data :
    M (list (list nat) * ydata * gmap string nat * list string) :=
  emit (EPrint "Loading data...") ;;
  assign "neg_train_path" (PStr neg_train_path) ;;
  assign "pos_train_path" (PStr pos_train_path) ;;
  d ← call (ELoadData pos_train_path neg_train_path)
           (load_data pos_train_path neg_train_path);
  assign_all [("x", PObj); ("y", PObj); ("vocabulary", PObj); ("vocabulary_inv", PObj)] ;;
  mret d.

(** Lines 136-143: the dispatch on [model_variation].  It yields the [x]
    training goes on with and [embedding_weights]. *)
Definition init_embedding (cfg : config) (x : list (list nat)) (vocabulary_inv : list string) :
    M (xdata * option (list matrix)) :=
  let mv := model_variation cfg in
  if (mv =? "CNN-non-static")%string || (mv =? "CNN-static")%string then
    embedding_weights ←
      call_rng (ETrainWord2Vec mv (embedding_dim cfg) (min_word_count cfg) (context cfg))
        (λ r, train_word2vec r x vocabulary_inv mv (embedding_dim cfg)
                (min_word_count cfg) (context cfg));
    assign "embedding_weights" PObj ;;
    if (mv =? "CNN-static")%string then
      x' ← lift (rewrite_static embedding_weights x);
      assign "x" PObj ;;
      mret (x', Some embedding_weights)
    else mret (XIds x, Some embedding_weights)
  else if (mv =? "CNN-rand")%string then
    assign "embedding_weights" PObj ;;
    mret (XIds x, None)
  else raise (ValueError "Unknown model variation").

(** Lines 146-148. *)
Definition shuffle (x : xdata) (y : ydata) : M (xdata * list nat) :=
  shuffle_indices ← permutation (arange (length y));
  assign "shuffle_indices" (PInts (Z.of_nat <$> shuffle_indices)) ;;
  x_shuffled ← lift (x_take x shuffle_indices);
  assign "x_shuffled" PObj ;;
  y_rows ← lift (np_take y shuffle_indices);
  y_shuffled ← lift (argmax_rows y_rows);
  assign "y_shuffled" (PInts (Z.of_nat <$> y_shuffled)) ;;
  mret (x_shuffled, y_shuffled).

(** A layer (or [Input]) built and applied: the tensor it returns. *)
Definition layer_call (t : tensor) : M tensor := keras (KTensor t) ;; mret t.

(** Lines 165-173: the loop, appending to [convs]. *)
Fixpoint conv_loop (cfg : config) (graph_in : tensor) (sizes : list Z) (convs : list tensor) :
    M (list tensor) :=
  match sizes with
  | [] => mret convs
  | fsz :: rest =>
      assign "fsz" (PInt fsz) ;;
      conv ← layer_call (Convolution1D (num_filters cfg) fsz "valid" "relu" 1 graph_in);
      assign "conv" PObj ;;
      pool ← layer_call (MaxPooling1D 2 conv);
      assign "pool" PObj ;;
      flatten ← layer_call (Flatten pool);
      assign "flatten" PObj ;;
      conv_loop cfg graph_in rest (convs ++ [flatten])
  end.

(** Lines 163-180. *)
Definition assemble_graph (cfg : config) (sequence_length : nat) : M graph_model :=
  graph_in ← layer_call (Input [Z.of_nat sequence_length; embedding_dim cfg]);
  assign "graph_in" PObj ;;
  assign "convs" PObj ;;
  convs ← conv_loop cfg graph_in (filter_sizes cfg) [];
  out ← (if 1 <? length (filter_sizes cfg) then layer_call (Merge "concat" convs)
         else lift (of_option IndexError (convs !! 0)));
  assign "out" PObj ;;
  let graph := Model graph_in out in
  keras (KModel graph) ;;
  assign "graph" PObj ;;
  mret graph.

(** [model.add(l)] *)
Definition model_add (m : sequential) (l : layer) : M sequential :=
  keras (KAdd m l) ;; mret (add m l).

(** Lines 183-194. *)
Definition assemble_model (cfg : config) (vocabulary_size sequence_length : nat)
    (embedding_weights : option (list matrix)) (graph : graph_model) : M sequential :=
  keras KSequential ;;
  let model := Sequential [] None in
  assign "model" PObj ;;
  model ← (if negb (model_variation cfg =? "CNN-static")%string then
             model_add model (Embedding (Z.of_nat vocabulary_size) (embedding_dim cfg)
                                (Z.of_nat sequence_length) embedding_weights)
           else mret model);
  model ← model_add model (Dropout (dropout_prob cfg).1
                             (Some [Z.of_nat sequence_length; embedding_dim cfg]));
  model ← model_add model (Graph graph);
  model ← model_add model (Dense (hidden_dims cfg));
  model ← model_add model (Dropout (dropout_prob cfg).2 None);
  model ← model_add model (Activation "relu");
  model ← model_add model (Dense 1);
  model ← model_add model (Activation "sigmoid");
  keras (KCompile model "binary_crossentropy" "rmsprop" ["accuracy"]) ;;
  mret (compile model "binary_crossentropy" "rmsprop" ["accuracy"]).

(** *** The graph and the model as values

    What [assemble_graph] and [assemble_model] return when they return
    (lemmas [assemble_graph_spec] and [assemble_model_spec]): the same
    lines with every Keras call taken to return.  The one exception
    left is the IndexError of [convs[0]], which is the script's own. *)

(** What the body of the [for fsz in filter_sizes:] loop appends to
    [convs]. *)
Definition conv_branch (cfg : config) (graph_in : tensor) (fsz : Z) : tensor :=
  let conv := Convolution1D (num_filters cfg) fsz "valid" "relu" 1 graph_in in
  let pool := MaxPooling1D 2 conv in
  let flatten := Flatten pool in
  flatten.

(** Lines 164-173: [convs] after the loop. *)
Definition conv_branches (cfg : config) (graph_in : tensor) : list tensor :=
  foldl (λ convs fsz, convs ++ [conv_branch cfg graph_in fsz]) [] (filter_sizes cfg).

(** Lines 175-178. *)
Definition graph_out (cfg : config) (convs : list tensor) : result tensor :=
  if 1 <? length (filter_sizes cfg) then Ok (Merge "concat" convs)
  else of_option IndexError (convs !! 0).

(** Lines 163-180: the graph built, or the IndexError of [convs[0]]. *)
Definition build_graph (cfg : config) (sequence_length : nat) : result graph_model :=
  let graph_in := Input [Z.of_nat sequence_length; embedding_dim cfg] in
  let convs := conv_branches cfg graph_in in
  rbind (graph_out cfg convs) (λ out, Ok (Model graph_in out)).

(** Lines 183-194: the model built. *)
Definition build_model (cfg : config) (vocabulary_size sequence_length : nat)
    (embedding_weights : option (list matrix)) (graph : graph_model) : sequential :=
  let model := Sequential [] None in
  let model :=
    if negb (model_variation cfg =? "CNN-static")%string then
      add model (Embedding (Z.of_nat vocabulary_size) (embedding_dim cfg)
                   (Z.of_nat sequence_length) embedding_weights)
    else model in
  let model := add model (Dropout (dropout_prob cfg).1
                            (Some [Z.of_nat sequence_length; embedding_dim cfg])) in
  let model := add model (Graph graph) in
  let model := add model (Dense (hidden_dims cfg)) in
  let model := add model (Dropout (dropout_prob cfg).2 None) in
  let model := add model (Activation "relu") in
  let model := add model (Dense 1) in
  let model := add model (Activation "sigmoid") in
  compile model "binary_crossentropy" "rmsprop" ["accuracy"].

(** Line 197: the file the architecture is written to. *)
Definition arch_path (cfg : config) : string :=
  "imdb_" +:+ model_variation cfg +:+ "7_arch.json".

(** Line 204: [model_name]. *)
Definition weights_path (cfg : config) : string :=
  "imdb_" +:+ model_variation cfg +:+ str (num_epochs cfg) +:+ ".h5".

(** Lines 102-205. *)
Definition train_branch (cfg : config) : M unit :=
  seed 2 ;;
  bind_parameters cfg ;;
  '(x, y, vocabulary, vocabulary_inv) ← load_training_data;
  '(x, embedding_weights) ← init_embedding cfg x vocabulary_inv;
  '(x_shuffled, y_shuffled) ← shuffle x y;
  emit (EPrint ("Vocabulary Size: " +:+ str (Z.of_nat (size vocabulary)))) ;;
  sequence_length ← lift (max_len (x_row_lens x_shuffled));
  assign "sequence_length" (PInt (Z.of_nat sequence_length)) ;;
  graph ← assemble_graph cfg sequence_length;
  model ← assemble_model cfg (size vocabulary) sequence_length embedding_weights graph;
  json_string ← draw (λ r, to_json r model);
  assign "json_string" (PStr json_string) ;;
  call (EWrite (arch_path cfg) json_string) (file_write (arch_path cfg) json_string) ;;
  call_rng (EFit model x_shuffled y_shuffled (batch_size cfg) (num_epochs cfg) (val_split cfg))
    (λ r, fit r model x_shuffled y_shuffled (batch_size cfg) (num_epochs cfg)
            (val_split cfg)) ;;
  let model_name := weights_path cfg in
  assign "model_name" (PStr model_name) ;;
  call_rng (ESaveWeights model model_name) (λ r, save_weights r model model_name).

(** ** The evaluation branch ([else:]) *)

Definition neg_test_path : string := "./data/imdb_test.neg".
Definition pos_test_path : string := "./data/imdb_test.pos".

(** [eb[word]] on a loaded word-vector model. *)
Definition eb_getitem (eb : gmap string vector) (word : string) : result vector :=
  of_option (KeyError word) (eb !! word).

(** [try: a  except: b] with a bare [except]. *)
Definition try_except {A} (body handler : result A) : result A :=
  match body with
  | Ok a => Ok a
  | Raise _ => handler
  end.

(** Lines 251-254: the vector appended for one word. *)
Definition lookup_word (eb : gmap string vector) (word : string) : result vector :=
  try_except (eb_getitem eb word) (eb_getitem eb "<PAD/>").

(** Lines 250-255: the loop over the words of [sentence], appending to
    [x]. *)
Fixpoint embed_loop (eb : gmap string vector) (sentence : list string) (x : list vector) :
    M (list vector) :=
  match sentence with
  | [] => mret x
  | word :: rest =>
      assign "word" (PStr word) ;;
      vect ← lift (lookup_word eb word);
      assign "vect" PObj ;;
      embed_loop eb rest (x ++ [vect])
  end.

(** Lines 232-233: [model_name] as formatted from the branch's own
    [embedding_dim = 20], [min_word_count = 1] and [context = 10]. *)
Definition word2vec_name (cfg : config) : string :=
  str 20 +:+ "features_" +:+ str 1 +:+ "minwords_" +:+ str 10 +:+ "context_"
  +:+ model_variation cfg.

(** Line 235: [os.path.join(model_dir, model_name)]; the name starts
    with a digit, so the two are joined by a slash. *)
Definition word2vec_path (cfg : config) : string :=
  "word2vec_models" +:+ "/" +:+ word2vec_name cfg.

Definition eval_arch_path (cfg : config) : string :=
  "imdb_" +:+ model_variation cfg +:+ "7_arch.json".

Definition eval_weights_path (cfg : config) : string :=
  "imdb_" +:+ model_variation cfg +:+ "7.h5".

(** [y_shuffled[0:test_num]] once both names have been looked up. *)
Definition slice_obj (a n : pyobj) : result (list Z) :=
  match a, n with
  | PInts a, PInt n => Ok (slice0 a n)
  | _, _ => Raise TypeError
  end.

(** Lines 212-282. *)
Definition eval_branch (cfg : config) : M unit :=
  emit (EPrint "Loading data test data...") ;;
  assign "neg_test_path" (PStr neg_test_path) ;;
  assign "pos_test_path" (PStr pos_test_path) ;;
  '(sentences, labels) ← call (ELoadDataAndLabels pos_test_path neg_test_path)
                              (load_data_and_labels pos_test_path neg_test_path);
  assign_all [("sentences", PObj); ("labels", PObj)] ;;
  assign_all [("embedding_dim", PInt 20); ("filter_sizes", PObj); ("num_filters", PInt 3);
              ("dropout_prob", PObj); ("hidden_dims", PInt 100);
              ("min_word_count", PInt 1); ("context", PInt 10)] ;;
  assign "model_dir" (PStr "word2vec_models") ;;
  let model_name := word2vec_name cfg in
  assign "model_name" (PStr model_name) ;;
  emit (EPrint ("Loading word2vec model: " +:+ model_name)) ;;
  let model_name := word2vec_path cfg in
  assign "model_name" (PStr model_name) ;;
  eb ← call (EWord2VecLoad model_name) (word2vec_load model_name);
  assign "eb" PObj ;;
  emit (EPrint "Loading CNN") ;;
  let arch := eval_arch_path cfg in
  assign "arch" (PStr arch) ;;
  let weights := eval_weights_path cfg in
  assign "weights" (PStr weights) ;;
  json ← call (ERead arch) (file_read arch);
  model ← call_rng (EModelFromJson json) (λ r, model_from_json r json);
  assign "model" PObj ;;
  call_rng (ELoadWeights weights) (λ r, load_weights r model weights) ;;
  emit (EPrint "padding senetences") ;;
  pad_size ← lift (of_option IndexError (model_input_shape model !! 1));
  assign "pad_size" PObj ;;
  sentences ← call (EPadSentences pad_size) (pad_sentences sentences pad_size);
  assign "sentences" PObj ;;
  assign "x" PObj ;;
  sentence ← lift (of_option IndexError (sentences !! 0));
  assign "sentence" PObj ;;
  x ← embed_loop eb sentence [];
  assign "x" PObj ;;
  pred ← call_rng (EPredictClasses x 1) (λ r, predict_classes r model x 1);
  assign "pred" (PInts pred) ;;
  emit (EPrintInts pred) ;;
  y_shuffled ← name_ref "y_shuffled";
  test_num ← name_ref "test_num";
  l ← lift (slice_obj y_shuffled test_num);
  assign "l" (PInts l) ;;
  call (EConfusionMatrix l pred) (confusion_matrix l pred) ;;
  call (EShowConfusionMatrix l pred) (show_confusion_matrix l pred).

(** ** The module body *)

(** Lines 42-100 and the [if] of line 101. *)
Definition script (cfg : config) : M unit :=
  assign_all ((λ n, (n, PObj)) <$> module_names) ;;
  assign "model_variation" (PStr (model_variation cfg)) ;;
  emit (EPrint ("Model variation is " +:+ model_variation cfg)) ;;
  assign "training" PObj ;;
  if training cfg then train_branch cfg else eval_branch cfg.

(** A run of the script in a fresh interpreter whose numpy generator
    starts in state [r0]. *)
Definition run (cfg : config) (r0 : rng_state) : state * result unit :=
  script cfg (State ∅ r0 []).

End Script.

(** ** A stand-in for Keras

    What the Keras 1 calls of the script do to shapes, as far as its
    layers go; enough to run the script on a small corpus.  The
    generator is a counter, and a call that initialises weights or
    shuffles batches advances it. *)
Module Keras1.

(** [conv_output_length(input_length, filter_size, 'valid', stride)] *)
Definition conv_output_length (input_length filter_size stride : Z) : Z :=
  ((input_length - filter_size + 1 + stride - 1) `div` stride)%Z.

(** The output shape of a tensor, without the batch axis.  [Flatten]
    raises when a dimension of its input is not positive: a sequence
    too short for the filter and the pool leaves no step to flatten. *)
Fixpoint shape_of (t : tensor) : result (list Z) :=
  match t with
  | Input shape => Ok shape
  | Convolution1D nb_filter filter_length _ _ subsample_length inp =>
      rbind (shape_of inp) (λ sh,
        match sh with
        | [steps; _] =>
            Ok [conv_output_length steps filter_length subsample_length; nb_filter]
        | _ => Raise (ValueError "Input 0 is incompatible with layer convolution1d")
        end)
  | MaxPooling1D pool_length inp =>
      rbind (shape_of inp) (λ sh,
        match sh with
        | [steps; features] =>
            Ok [conv_output_length steps pool_length pool_length; features]
        | _ => Raise (ValueError "Input 0 is incompatible with layer maxpooling1d")
        end)
  | Flatten inp =>
      rbind (shape_of inp) (λ sh,
        if forallb (λ d, 0 <? d)%Z sh then Ok [foldr Z.mul 1%Z sh]
        else Raise (ValueError "The shape of the input to Flatten is not fully defined"))
  | Merge _ inps =>
      rbind ((fix shapes (ts : list tensor) : result (list (list Z)) :=
                match ts with
                | [] => Ok []
                | t' :: ts' =>
                    rbind (shape_of t') (λ sh, rbind (shapes ts') (λ shs, Ok (sh :: shs)))
                end) inps)
        (λ shs, if 1 <? length shs then Ok [foldr Z.add 0%Z (concat shs)]
                else Raise (ValueError "Merge must be called on a list of tensors"))
  end.

(** [Embedding(..., weights=ws)]: the initial weights are one matrix of
    [input_dim] rows and [output_dim] columns. *)
Definition weights_fit (input_dim output_dim : Z) (ws : list matrix) : bool :=
  match ws with
  | [w] => (Z.of_nat (length w) =? input_dim)%Z
           && forallb (λ row, (Z.of_nat (length row) =? output_dim)%Z) w
  | _ => false
  end.

Definition check (c : keras_call) : result unit :=
  match c with
  | KTensor t => rbind (shape_of t) (λ _, Ok ())
  | KModel g => rbind (shape_of (g_output g)) (λ _, Ok ())
  | KAdd _ (Embedding input_dim output_dim _ (Some ws)) =>
      if weights_fit input_dim output_dim ws then Ok ()
      else Raise (ValueError "Layer weight shape not compatible with provided weight shape")
  | _ => Ok ()
  end.

(** The calls that initialise weights. *)
Definition draws (c : keras_call) : nat :=
  match c with
  | KTensor (Convolution1D _ _ _ _ _ _) => 1
  | KAdd _ (Embedding _ _ _ _) | KAdd _ (Dense _) => 1
  | _ => 0
  end.

Definition build (r : nat) (c : keras_call) : result unit * nat := (check c, draws c + r).

(** The input a model takes: token ids of [input_length] steps under an
    [Embedding] first layer, else vectors of the declared
    [input_shape]. *)
Definition input_fits (m : sequential) (x : xdata) : bool :=
  match head (layers m), x with
  | Some (Embedding _ _ input_length _), XIds rows =>
      forallb (λ row, (Z.of_nat (length row) =? input_length)%Z) rows
  | Some (Dropout _ (Some [steps; features])), XVecs rows =>
      forallb (λ row, (Z.of_nat (length row) =? steps)%Z
                      && forallb (λ v, (Z.of_nat (length v) =? features)%Z) row) rows
  | _, _ => false
  end.

(** [model.fit]: the model is compiled, the input has its shape and
    there is one label per example. *)
Definition fit (r : nat) (m : sequential) (x : xdata) (y : list nat)
    (batch_size nb_epoch : Z) (validation_split : float) : result unit * nat :=
  (if bool_decide (is_Some (compiled m)) && input_fits m x && (x_len x =? length y)
   then Ok () else Raise (ValueError "Error when checking model input"), S r).

End Keras1.

(** ** A small concrete world

    An instance of the external calls on a three-review corpus, to run
    the script on.  Its reviews have three tokens, fewer than the script's
    filter and pool sizes need, and its word vectors two entries: the
    shuffle, the static rewrite and the evaluation branch run on it,
    the assembly of the graph raises. *)
Module Demo.

Definition corpus_x : list (list nat) := [[1; 2; 0]; [2; 2; 1]; [0; 1; 1]].
Definition corpus_y : ydata := [[0; 1]; [1; 0]; [0; 1]]%Z.
Definition vocabulary : gmap string nat :=
  {[ "<PAD/>" := 0; "good" := 1; "bad" := 2 ]}.
Definition vocabulary_inv : list string := ["<PAD/>"; "good"; "bad"].
Definition word_vectors : matrix :=
  [[0; 0]; [1; 0]; [0; 1]]%Q.
Definition eb : gmap string vector :=
  {[ "<PAD/>" := [0; 0]%Q; "good" := [1; 0]%Q ]}.

(** The generator is a counter; a permutation rotates its argument by
    the count plus two. *)
#[export] Instance ext : Externals := {|
  rng_state := nat;
  np_seed := Z.to_nat;
  np_permutation := λ r a, (rotate (r + 2) a, S r);
  load_data := λ _ _, Ok (corpus_x, corpus_y, vocabulary, vocabulary_inv);
  train_word2vec := λ r _ _ _ _ _ _, (Ok [word_vectors], S r);
  keras_build := Keras1.build;
  to_json := λ r m, (Ok "{}", r);
  file_write := λ _ _, Ok ();
  fit := Keras1.fit;
  save_weights := λ r _ _, (Ok (), r);
  load_data_and_labels := λ _ _, Ok ([["good"; "film"]; ["bad"]], [[0; 1]; [1; 0]]%Z);
  word2vec_load := λ _, Ok eb;
  file_read := λ _, Ok "{}";
  model_from_json := λ r _, (Ok (Sequential [] None), S r);
  load_weights := λ r _ _, (Ok (), r);
  model_input_shape := λ _, [None; Some 3%Z];
  pad_sentences := λ ss _, Ok ((λ s, firstn 3 (s ++ ["<PAD/>"; "<PAD/>"; "<PAD/>"])) <$> ss);
  predict_classes := λ r _ x _, (Ok ((λ _, 1%Z) <$> x), r);
  confusion_matrix := λ _ _, Ok ();
  show_confusion_matrix := λ _ _, Ok ()
|}.

End Demo.

(** ** A world the training branch completes in

    Three reviews of five tokens, the shortest the script's filter
    sizes (3, 4) and pool length 2 leave a step of; [train_word2vec]
    returns one matrix with a row per vocabulary entry and
    [num_features] columns. *)
Module Reviews.

Definition corpus_x : list (list nat) := [[1; 3; 1; 1; 3]; [2; 3; 0; 0; 0]; [3; 2; 2; 0; 0]].
Definition corpus_y : ydata := [[0; 1]; [1; 0]; [1; 0]]%Z.
Definition vocabulary : gmap string nat :=
  {[ "<PAD/>" := 0; "good" := 1; "bad" := 2; "film" := 3 ]}.
Definition vocabulary_inv : list string := ["<PAD/>"; "good"; "bad"; "film"].

Definition word_vectors (vocabulary_inv : list string) (num_features : Z) : matrix :=
  (λ i, replicate (Z.to_nat num_features) (Qmake (Z.of_nat i) 1))
    <$> seq 0 (length vocabulary_inv).

#[export] Instance ext : Externals := {|
  rng_state := nat;
  np_seed := Z.to_nat;
  np_permutation := λ r a, (rotate (r + 2) a, S r);
  load_data := λ _ _, Ok (corpus_x, corpus_y, vocabulary, vocabulary_inv);
  train_word2vec := λ r _ vocabulary_inv _ num_features _ _,
    (Ok [word_vectors vocabulary_inv num_features], S r);
  keras_build := Keras1.build;
  to_json := λ r m, (Ok "{}", r);
  file_write := λ _ _, Ok ();
  fit := Keras1.fit;
  save_weights := λ r _ _, (Ok (), r);
  load_data_and_labels := @load_data_and_labels Demo.ext;
  word2vec_load := @word2vec_load Demo.ext;
  file_read := @file_read Demo.ext;
  model_from_json := @model_from_json Demo.ext;
  load_weights := @load_weights Demo.ext;
  model_input_shape := @model_input_shape Demo.ext;
  pad_sentences := @pad_sentences Demo.ext;
  predict_classes := @predict_classes Demo.ext;
  confusion_matrix := @confusion_matrix Demo.ext;
  show_confusion_matrix := @show_confusion_matrix Demo.ext
|}.

End Reviews.


(** [script_config] with another variant, toggle and epoch budget. *)
Definition configured (variation : string) (train : bool) (epochs : Z) : config :=
  Config variation train (embedding_dim script_config) (filter_sizes script_config)
    (num_filters script_config) (dropout_prob script_config) (hidden_dims script_config)
    (batch_size script_config) epochs (val_split script_config)
    (min_word_count script_config) (context script_config).

(** The layers of a [Sequential] model that come after its graph
    layer, i.e. what the output of the convolutional graph is fed
    through. *)
Fixpoint after_graph (ls : list layer) : list layer :=
  match ls with
  | [] => []
  | Graph _ :: ls' => ls'
  | _ :: ls' => after_graph ls'
  end.

(** The events that compute or show the confusion matrix. *)
Definition computes_confusion (e : event) : bool :=
  match e with
  | EConfusionMatrix _ _ | EShowConfusionMatrix _ _ => true
  | _ => false
  end.

(** [print pred], line 259. *)
Definition prints_prediction (e : event) : bool :=
  match e with EPrintInts _ => true | _ => false end.

(** [model.fit] being called. *)
Definition is_fit (e : event) : bool :=
  match e with EFit _ _ _ _ _ _ => true | _ => false end.

(** The two events that create a model artifact: the write of the
    architecture description and the save of the weights. *)
Definition persists (e : event) : bool :=
  match e with EWrite _ _ | ESaveWeights _ _ => true | _ => false end.

(** The artifact writes and the calls of [fit] of a run, in order. *)
Definition milestones (tr : list event) : list event :=
  List.filter (λ e, persists e || is_fit e) tr.

(** "Created only after the training step": every artifact write of
    the trace has a call of [fit] before it. *)
Fixpoint created_after_fit_from (fitted : bool) (tr : list event) : bool :=
  match tr with
  | [] => true
  | e :: tr' =>
      (if persists e then fitted else true)
      && created_after_fit_from (fitted || is_fit e) tr'
  end.

Definition created_after_fit (tr : list event) : bool :=
  created_after_fit_from false tr.

(** The last character of a string, [d] for the empty string. *)
Fixpoint last_ascii (s : string) (d : Ascii.ascii) : Ascii.ascii :=
  match s with
  | EmptyString => d
  | String c s' => last_ascii s' c
  end.

(** The rows of [x], in order. *)
Definition x_rows (x : xdata) : list xrow :=
  match x with
  | XIds r => RowIds <$> r
  | XVecs r => RowVecs <$> r
  end.

(** The three variant strings the dispatch of lines 136-143 accepts. *)
Definition known_variation (v : string) : Prop :=
  v = "CNN-non-static" ∨ v = "CNN-static" ∨ v = "CNN-rand".

(** [train_word2vec] being called. *)
Definition trains_word2vec (e : event) : bool :=
  match e with ETrainWord2Vec _ _ _ _ => true | _ => false end.

(** The events only the training branch has. *)
Definition training_event (e : event) : bool :=
  match e with
  | ELoadData _ _ | ETrainWord2Vec _ _ _ _ | EWrite _ _ | EFit _ _ _ _ _ _
  | ESaveWeights _ _ => true
  | _ => false
  end.

(** The events only the evaluation branch has. *)
Definition evaluation_event (e : event) : bool :=
  match e with
  | ELoadDataAndLabels _ _ | EWord2VecLoad _ | ERead _ | EModelFromJson _
  | ELoadWeights _ | EPadSentences _ | EPredictClasses _ _ | EPrintInts _
  | EConfusionMatrix _ _ | EShowConfusionMatrix _ _ => true
  | _ => false
  end.

Section TestNetwork.
Context `{Ext : Externals}.

(** Lines 88-93: [test_network(architecture, weights, data)].  Its
    names are local to the call, so the module namespace is not
    touched. *)
Definition test_network (architecture weights : string) (data : list vector) : M (list Z) :=
  json ← call (ERead architecture) (file_read architecture);
  model ← call_rng (EModelFromJson json) (λ r, model_from_json r json);
  call_rng (ELoadWeights weights) (λ r, load_weights r model weights) ;;
  pred ← call_rng (EPredictClasses data 1) (λ r, predict_classes r model data 1);
  mret pred.

End TestNetwork.

(** The small world with a corpus that has no review at all. *)
Module EmptyCorpus.

#[export] Instance ext : Externals := {|
  rng_state := nat;
  np_seed := Z.to_nat;
  np_permutation := λ r a, (rotate (r + 2) a, S r);
  load_data := λ _ _, Ok ([], [], {[ "<PAD/>" := 0 ]}, ["<PAD/>"]);
  train_word2vec := λ r _ _ _ _ _ _, (Ok [Demo.word_vectors], S r);
  keras_build := @keras_build Demo.ext;
  to_json := @to_json Demo.ext;
  file_write := @file_write Demo.ext;
  fit := @fit Demo.ext;
  save_weights := @save_weights Demo.ext;
  load_data_and_labels := λ _ _, Ok ([], []);
  word2vec_load := @word2vec_load Demo.ext;
  file_read := @file_read Demo.ext;
  model_from_json := @model_from_json Demo.ext;
  load_weights := @load_weights Demo.ext;
  model_input_shape := @model_input_shape Demo.ext;
  pad_sentences := @pad_sentences Demo.ext;
  predict_classes := @predict_classes Demo.ext;
  confusion_matrix := @confusion_matrix Demo.ext;
  show_confusion_matrix := @show_confusion_matrix Demo.ext
|}.

End EmptyCorpus.

(** [script_config] with another variant and other filter sizes. *)
Definition with_filters (variation : string) (sizes : list Z) : config :=
  Config variation true (embedding_dim script_config) sizes
    (num_filters script_config) (dropout_prob script_config) (hidden_dims script_config)
    (batch_size script_config) (num_epochs script_config) (val_split script_config)
    (min_word_count script_config) (context script_config).

(** * Properties *)

(** ** Lists and fallible maps *)

Section Rmap.
Context {A B : Type} (f : A → result B).

Lemma rmap_Ok_length l bs : rmap f l = Ok bs → length bs = length l.
Proof.
  revert bs. induction l as [|a l IH]; intros bs; simpl.
  - by intros [= <-].
  - destruct (f a); [|done]. simpl. destruct (rmap f l); [|done].
    intros [= <-]. simpl. f_equal. by apply IH.
Qed.

Lemma rmap_Ok_lookup l bs k a :
  rmap f l = Ok bs → l !! k = Some a → ∃ b, bs !! k = Some b ∧ f a = Ok b.
Proof.
  revert bs k. induction l as [|a' l IH]; intros bs k; simpl; [done|].
  destruct (f a') as [b'|] eqn:Hf; [|done]. simpl.
  destruct (rmap f l) as [bs'|]; [|done]. intros [= <-].
  destruct k as [|k]; simpl.
  - intros [= ->]. eauto.
  - intros Hk. by apply IH.
Qed.

End Rmap.

Lemma np_take_length {A} (a : list A) idx b :
  np_take a idx = Ok b → length b = length idx.
Proof. apply rmap_Ok_length. Qed.

Lemma np_take_lookup {A} (a : list A) idx b k i :
  np_take a idx = Ok b → idx !! k = Some i →
  ∃ v, b !! k = Some v ∧ a !! i = Some v.
Proof.
  intros Hb Hk. destruct (rmap_Ok_lookup _ _ _ _ _ Hb Hk) as (v & Hv & Ha).
  exists v. split; [done|]. by destruct (a !! i); simplify_eq/=.
Qed.

(** ** Running the script symbolically *)

(** Unfolding the statements of the monad down to matches on the
    results of external calls. *)
Tactic Notation "exec" "in" hyp(H) :=
  cbv [mbind mret M_bind M_ret call call_rng draw keras layer_call model_add emit assign
       assign_all lift raise name_ref seed permutation ns rng out] in H.

Tactic Notation "exec" :=
  cbv [mbind mret M_bind M_ret call call_rng draw keras layer_call model_add emit assign
       assign_all lift raise name_ref seed permutation ns rng out].

(** One case split on what the run in [H] is waiting for: a test, the
    result of a call, or a pair. *)
Ltac case_step H :=
  match type of H with
  | context [if ?b then _ else _] => destruct b eqn:?
  | context [match ?l with [] => _ | _ :: _ => _ end] => destruct l eqn:?
  | context [match ?r with Ok _ => _ | Raise _ => _ end] => destruct r eqn:?
  | context [let '(_, _) := ?p in _] =>
      lazymatch p with
      | (let '(_, _) := _ in _) => fail
      | _ => destruct p eqn:?
      end
  end; cbn beta iota zeta in H.

(** A lookup of a name a block never binds, through the inserts of its
    assignments and through the frames of its loops. *)
Ltac frame_lookup :=
  cbn [foldl fst snd]; rewrite ?lookup_insert_ne by done;
  repeat match goal with
         | Hn : ∀ k, _ → _ → ?n !! k = _ |- context [?n !! _] =>
             rewrite Hn by done; cbn [foldl fst snd]; rewrite ?lookup_insert_ne by done
         | Hn : ∀ k, _ → ?n !! k = _ |- context [?n !! _] =>
             rewrite Hn by first [done | compute_done]; cbn [foldl fst snd];
             rewrite ?lookup_insert_ne by done
         end.

(** ** The convolutional graph *)

Lemma conv_branches_fmap cfg graph_in :
  conv_branches cfg graph_in = conv_branch cfg graph_in <$> filter_sizes cfg.
Proof.
  unfold conv_branches.
  enough (∀ l acc, foldl (λ convs fsz, convs ++ [conv_branch cfg graph_in fsz]) acc l
                   = acc ++ (conv_branch cfg graph_in <$> l)) as H by apply (H _ []).
  induction l as [|fsz l IH]; intros acc; simpl.
  - by rewrite app_nil_r.
  - by rewrite IH, <- app_assoc.
Qed.

Lemma build_graph_no_filters cfg sequence_length :
  filter_sizes cfg = [] → build_graph cfg sequence_length = Raise IndexError.
Proof. intros Hfs. unfold build_graph, graph_out, conv_branches. by rewrite Hfs. Qed.

Section Assembly.
Context `{Ext : Externals}.

(** The loop binds only its own four names and has no effect on the
    outside; when it returns, it has appended one branch per filter
    size, in order. *)
Lemma conv_loop_spec (cfg : config) (graph_in : tensor) sizes convs s :
  let s' := (conv_loop cfg graph_in sizes convs s).1 in
  let res := (conv_loop cfg graph_in sizes convs s).2 in
  out s' = out s
  ∧ (∀ k, k ∉ graph_names → ns s' !! k = ns s !! k)
  ∧ (∀ cs, res = Ok cs → cs = convs ++ (conv_branch cfg graph_in <$> sizes)).
Proof.
  revert convs s. induction sizes as [|fsz rest IH]; intros convs [n r o].
  - cbn [conv_loop]. exec. split_and!; [done|done|]. intros cs [= <-]. by rewrite app_nil_r.
  - destruct (conv_loop cfg graph_in (fsz :: rest) convs (State n r o)) as [s' res] eqn:H.
    cbn [fst snd]. cbn [conv_loop] in H. exec in H.
    assert (Hfsz : ∀ k, k ∉ graph_names → k ≠ "fsz" ∧ k ≠ "conv" ∧ k ≠ "pool" ∧ k ≠ "flatten").
    { intros k Hk. split_and!; intros ->; apply Hk; compute_done. }
    repeat (case_step H;
            try solve [ simplify_eq; cbn [ns out]; split_and!; [done| |done];
                        intros k Hk; destruct (Hfsz k Hk) as (? & ? & ? & ?);
                        by rewrite ?lookup_insert_ne by done ]).
    match type of H with
    | conv_loop _ _ _ ?cs ?st = _ => specialize (IH cs st)
    end.
    rewrite H in IH. cbn [fst snd ns out] in IH. destruct IH as (Ho & Hn & Hres).
    split_and!; [done| |].
    + intros k Hk. rewrite Hn by done. destruct (Hfsz k Hk) as (? & ? & ? & ?).
      by rewrite ?lookup_insert_ne by done.
    + intros cs Hcs. rewrite (Hres cs Hcs), <- app_assoc. done.
Qed.

(** Lines 163-180 bind only their own names and have no effect on the
    outside; the graph they return, when every call in them returns, is
    [build_graph]. *)
Lemma assemble_graph_spec (cfg : config) (sequence_length : nat) s :
  let s' := (assemble_graph cfg sequence_length s).1 in
  let res := (assemble_graph cfg sequence_length s).2 in
  out s' = out s
  ∧ (∀ k, k ∉ graph_names → ns s' !! k = ns s !! k)
  ∧ (∀ graph, res = Ok graph → build_graph cfg sequence_length = Ok graph).
Proof.
  destruct s as [n r o].
  destruct (assemble_graph cfg sequence_length (State n r o)) as [s' res] eqn:H.
  cbn [fst snd]. unfold assemble_graph in H. exec in H.
  assert (Hnames : ∀ k, k ∉ graph_names →
            k ≠ "graph_in" ∧ k ≠ "convs" ∧ k ≠ "out" ∧ k ≠ "graph").
  { intros k Hk. split_and!; intros ->; apply Hk; compute_done. }
  assert (Hframe : ∀ (n' n'' : gmap string pyobj),
            (∀ k, k ∉ graph_names → n' !! k = n'' !! k) →
            ∀ k, k ∉ graph_names →
              n' !! k = n'' !! k ∧ k ≠ "graph_in" ∧ k ≠ "convs" ∧ k ≠ "out" ∧ k ≠ "graph").
  { intros n' n'' Hn k Hk. split; [by apply Hn|by apply Hnames]. }
  unfold build_graph, graph_out. rewrite conv_branches_fmap.
  repeat (first
    [ match type of H with
      | context [conv_loop ?c ?g ?l ?cs ?st] =>
          let F := fresh "F" in
          pose proof (conv_loop_spec c g l cs st) as F;
          destruct (conv_loop c g l cs st) as [[? ? ?] [?|?]] eqn:?;
          cbn [fst snd ns out] in F; destruct F as (-> & Hloop & Hcs);
          [specialize (Hcs _ eq_refl); cbn [app] in Hcs; subst|clear Hcs];
          cbn beta iota zeta in H
      end
    | case_step H ];
    try solve [ simplify_eq; cbn [ns out]; split_and!;
                [ done
                | intros k Hk; destruct (Hnames k Hk) as (? & ? & ? & ?);
                  rewrite ?lookup_insert_ne by done;
                  try (rewrite Hloop by done); by rewrite ?lookup_insert_ne by done
                | try done; intros graph [= <-];
                  repeat match goal with
                         | Hb : (_ <? _) = _ |- _ => rewrite Hb
                         | Hl : _ !! 0 = _ |- _ => rewrite Hl
                         end; done ] ]).
Qed.

(** The branches line 173 appends and the output lines 175-178 choose,
    for a graph that was built. *)
Lemma build_graph_Ok (cfg : config) (sequence_length : nat) (graph : graph_model) :
  build_graph cfg sequence_length = Ok graph →
  let graph_in := Input [Z.of_nat sequence_length; embedding_dim cfg] in
  let convs := conv_branch cfg graph_in <$> filter_sizes cfg in
  g_input graph = graph_in
  ∧ (if 1 <? length (filter_sizes cfg) then g_output graph = Merge "concat" convs
     else ∃ fsz, head (filter_sizes cfg) = Some fsz
                 ∧ g_output graph = conv_branch cfg graph_in fsz).
Proof.
  unfold build_graph, graph_out. rewrite conv_branches_fmap. intros H. cbv zeta.
  destruct (1 <? length (filter_sizes cfg)); simpl in H.
  - by injection H as <-.
  - destruct (filter_sizes cfg) as [|fsz rest]; simpl in H; [done|].
    injection H as <-. split; [done|]. by exists fsz.
Qed.

(** When every building call of Keras returns, the graph is built if
    there is a filter size. *)
Lemma assemble_graph_returns (cfg : config) (sequence_length : nat) s :
  (∀ r c, (keras_build r c).1 = Ok ()) →
  filter_sizes cfg ≠ [] →
  is_ok (assemble_graph cfg sequence_length s).2 = true.
Proof.
  intros Hk Hfs. destruct s as [n r o].
  assert (Hloop : ∀ graph_in sizes convs st,
            ∃ st', conv_loop cfg graph_in sizes convs st
                   = (st', Ok (convs ++ (conv_branch cfg graph_in <$> sizes)))).
  { intros graph_in sizes. induction sizes as [|fsz rest IH]; intros convs [n' r' o'].
    - cbn [conv_loop]. exec. rewrite app_nil_r. by eexists.
    - cbn [conv_loop]. exec.
      repeat match goal with
             | |- context [keras_build ?r1 ?c] =>
                 let Hc := fresh "Hc" in
                 pose proof (Hk r1 c) as Hc;
                 destruct (keras_build r1 c) as [? ?]; cbn [fst] in Hc; subst;
                 cbn beta iota zeta
             end.
      match goal with
      | |- context [conv_loop _ _ _ ?cs ?st] => destruct (IH cs st) as [st' ->]
      end.
      rewrite <- app_assoc. by eexists. }
  destruct (filter_sizes cfg) as [|fsz rest] eqn:Hsizes; [done|].
  unfold assemble_graph. rewrite Hsizes. exec.
  repeat match goal with
         | |- context [conv_loop ?c ?g ?l ?cs ?st] =>
             let st' := fresh "st" in
             destruct (Hloop g l cs st) as [st' ->]; destruct st' as [? ? ?];
             cbn [app fmap list_fmap lookup list_lookup of_option]; cbn beta iota zeta
         | |- context [keras_build ?r1 ?c] =>
             let Hc := fresh "Hc" in
             pose proof (Hk r1 c) as Hc;
             destruct (keras_build r1 c) as [? ?]; cbn [fst] in Hc; subst;
             cbn beta iota zeta
         | |- context [if ?b then _ else _] => destruct b; cbn beta iota zeta
         end.
  all: done.
Qed.

End Assembly.
(** C4.  The loop of lines 165-173, when it returns, has appended one
    branch per entry of [filter_sizes], in order, each over the graph
    input with that entry as filter length.  A graph that lines 163-180
    return has a [Merge] as output exactly when there are at least two
    filter sizes, and it is then the concatenation of all branches;
    with a single filter size the output is the one branch itself, and
    no [Merge].  The lines do return a graph when every building call
    of Keras returns and there is a filter size, and never without
    one. *)
Theorem graph_one_branch_per_width `{Ext : Externals} (cfg : config) (sequence_length : nat)
    (s : state) :
  let graph_in := Input [Z.of_nat sequence_length; embedding_dim cfg] in
  let branch := λ fsz, Flatten (MaxPooling1D 2
                  (Convolution1D (num_filters cfg) fsz "valid" "relu" 1 graph_in)) in
  (∀ st convs,
     (conv_loop cfg graph_in (filter_sizes cfg) [] st).2 = Ok convs →
     length convs = length (filter_sizes cfg)
     ∧ ∀ i, convs !! i = branch <$> filter_sizes cfg !! i)
  ∧ (∀ graph,
       (assemble_graph cfg sequence_length s).2 = Ok graph →
       g_input graph = graph_in
       ∧ ((∃ mode inps, g_output graph = Merge mode inps) ↔ 1 < length (filter_sizes cfg))
       ∧ (1 < length (filter_sizes cfg) →
          g_output graph = Merge "concat" (branch <$> filter_sizes cfg))
       ∧ (∀ fsz, filter_sizes cfg = [fsz] → g_output graph = branch fsz))
  ∧ ((∀ r c, (keras_build r c).1 = Ok ()) → filter_sizes cfg ≠ [] →
     is_ok (assemble_graph cfg sequence_length s).2 = true)
  ∧ (filter_sizes cfg = [] → is_ok (assemble_graph cfg sequence_length s).2 = false).
Proof.
  intros graph_in branch. split_and!.
  - intros st convs Hloop.
    destruct (conv_loop_spec cfg graph_in (filter_sizes cfg) [] st) as (_ & _ & Hcs).
    rewrite (Hcs _ Hloop). cbn [app]. split.
    + by rewrite length_fmap.
    + intros i. by rewrite list_lookup_fmap.
  - intros graph Hg.
    destruct (assemble_graph_spec cfg sequence_length s) as (_ & _ & Hb).
    apply Hb, build_graph_Ok in Hg as (Hin & Hout). fold graph_in in Hin, Hout.
    destruct (Nat.ltb_spec 1 (length (filter_sizes cfg))) as [Hlt|Hle].
    + split_and!; [done| |done|].
      * split; [done|]. intros _. rewrite Hout. by eexists _, _.
      * intros fsz Hf. rewrite Hf in Hlt. simpl in Hlt. lia.
    + destruct Hout as (fsz & Hhead & Hout). split_and!; [done| | |].
      * split; [|lia]. intros (mode & inps & Hm). rewrite Hout in Hm. discriminate Hm.
      * lia.
      * intros fsz' Hf. rewrite Hf in Hhead. injection Hhead as <-. done.
  - apply assemble_graph_returns.
  - intros Hfs.
    destruct (assemble_graph_spec cfg sequence_length s) as (_ & _ & Hb).
    destruct (assemble_graph cfg sequence_length s).2 as [graph|e]; [|done].
    specialize (Hb graph eq_refl). by rewrite (build_graph_no_filters _ _ Hfs) in Hb.
Qed.

(** On reviews of five tokens the script's graph is built: two
    branches, of widths 3 and 4, merged by concatenation.  On reviews
    of three tokens, which leave the pool nothing to flatten, the same
    lines raise. *)
Lemma graph_one_branch_per_width_witness :
  let s := @State Reviews.ext ∅ 0 [] in
  let graph_in := Input [5; 100]%Z in
  let graph :=
    Model graph_in
      (Merge "concat"
         [Flatten (MaxPooling1D 2 (Convolution1D 150 3 "valid" "relu" 1 graph_in));
          Flatten (MaxPooling1D 2 (Convolution1D 150 4 "valid" "relu" 1 graph_in))]) in
  (assemble_graph script_config 5 s).2 = Ok graph
  ∧ ((∃ mode inps, g_output graph = Merge mode inps)
     ↔ 1 < length (filter_sizes script_config))
  ∧ (assemble_graph script_config 3 s).2
    = Raise (ValueError "The shape of the input to Flatten is not fully defined").
Proof.
  intros s graph_in graph.
  assert (Hg : (assemble_graph script_config 5 s).2 = Ok graph) by (vm_compute; reflexivity).
  split; [exact Hg|]. split; [|vm_compute; reflexivity].
  exact (proj1 (proj2 (proj1 (proj2
           (graph_one_branch_per_width (Ext := Reviews.ext) script_config 5 s)) graph Hg))).
Defined.

(** ** The sequential model *)

Lemma build_model_layers cfg vocabulary_size sequence_length embedding_weights graph :
  layers (build_model cfg vocabulary_size sequence_length embedding_weights graph)
  = (if (model_variation cfg =? "CNN-static")%string then []
     else [Embedding (Z.of_nat vocabulary_size) (embedding_dim cfg)
             (Z.of_nat sequence_length) embedding_weights])
    ++ [Dropout (dropout_prob cfg).1 (Some [Z.of_nat sequence_length; embedding_dim cfg]);
        Graph graph; Dense (hidden_dims cfg); Dropout (dropout_prob cfg).2 None;
        Activation "relu"; Dense 1; Activation "sigmoid"].
Proof. unfold build_model. by destruct (model_variation cfg =? "CNN-static")%string. Qed.

Section ModelAssembly.
Context `{Ext : Externals}.

(** Lines 183-194 bind only [model] and have no effect on the outside;
    the model they return, when every call in them returns, is
    [build_model]. *)
Lemma assemble_model_spec (cfg : config) (vocabulary_size sequence_length : nat)
    (embedding_weights : option (list matrix)) (graph : graph_model) s :
  let s' := (assemble_model cfg vocabulary_size sequence_length embedding_weights graph s).1 in
  let res := (assemble_model cfg vocabulary_size sequence_length embedding_weights graph s).2 in
  out s' = out s
  ∧ (∀ k, k ≠ "model" → ns s' !! k = ns s !! k)
  ∧ (∀ model, res = Ok model →
       model = build_model cfg vocabulary_size sequence_length embedding_weights graph).
Proof.
  destruct s as [n r o].
  destruct (assemble_model cfg vocabulary_size sequence_length embedding_weights graph
              (State n r o)) as [s' res] eqn:H.
  cbn [fst snd]. unfold assemble_model in H. exec in H.
  repeat (case_step H;
          try solve [ simplify_eq; cbn [ns out]; split_and!;
                      [ done
                      | intros k Hk; by rewrite ?lookup_insert_ne by done
                      | try done; intros model [= <-]; unfold build_model;
                        repeat match goal with
                               | Hb : negb _ = _ |- _ => rewrite Hb
                               end; done ] ]).
Qed.

(** When every building call of Keras returns, so do lines 183-194. *)
Lemma assemble_model_returns (cfg : config) (vocabulary_size sequence_length : nat)
    (embedding_weights : option (list matrix)) (graph : graph_model) s :
  (∀ r c, (keras_build r c).1 = Ok ()) →
  is_ok (assemble_model cfg vocabulary_size sequence_length embedding_weights graph s).2
  = true.
Proof.
  intros Hk. destruct s as [n r o]. unfold assemble_model. exec.
  repeat match goal with
         | |- context [keras_build ?r1 ?c] =>
             let Hc := fresh "Hc" in
             pose proof (Hk r1 c) as Hc;
             destruct (keras_build r1 c) as [? ?]; cbn [fst] in Hc; subst;
             cbn beta iota zeta
         | |- context [if ?b then _ else _] => destruct b; cbn beta iota zeta
         end.
  all: done.
Qed.

End ModelAssembly.

(** C5, as the claim has it, fails on a run of the script as it stands:
    the run ends normally, and in the model it fits what follows the
    graph layer starts with the dense layer; it is not the six-layer
    chain dropout, dense, dropout, relu, dense, sigmoid. *)
Lemma head_after_graph_counterexample :
  let r := run (Ext := Reviews.ext) script_config 0 in
  r.2 = Ok ()
  ∧ ∃ model x_shuffled y_shuffled,
      EFit model x_shuffled y_shuffled 32 7 (1 # 10)%Q ∈ out r.1
      ∧ after_graph (layers model)
        = [Dense 150; Dropout (1 # 2)%Q None; Activation "relu"; Dense 1;
           Activation "sigmoid"]
      ∧ ¬ ∃ p0 s0 p1 s1,
            after_graph (layers model)
            = [Dropout p0 s0; Dense (hidden_dims script_config); Dropout p1 s1;
               Activation "relu"; Dense 1; Activation "sigmoid"].
Proof.
  split; [by vm_compute|]. do 3 eexists. split_and!.
  - vm_compute. repeat first [apply list_elem_of_here | apply list_elem_of_further].
  - by vm_compute.
  - intros (p0 & s0 & p1 & s1 & H). vm_compute in H. discriminate H.
Qed.

(** C5, amended.  A branch the loop appends is a convolution (relu),
    then max-pooling of length 2, then flatten.  A model lines 183-194
    return is, in order: the embedding layer unless the variant is
    CNN-static, the first dropout, the graph, and then
    dense(hidden_dims), the second dropout, relu, dense(1), sigmoid; so
    the first dropout is applied before the graph and only five layers
    follow it.  The lines do return a model when every building call of
    Keras returns. *)
Theorem model_layer_order `{Ext : Externals} (cfg : config)
    (vocabulary_size sequence_length : nat) (embedding_weights : option (list matrix))
    (graph : graph_model) (s : state) :
  let res := (assemble_model cfg vocabulary_size sequence_length embedding_weights graph s).2 in
  (∀ graph_in sizes st convs,
     (conv_loop cfg graph_in sizes [] st).2 = Ok convs →
     convs = (λ fsz, Flatten (MaxPooling1D 2
                       (Convolution1D (num_filters cfg) fsz "valid" "relu" 1 graph_in)))
             <$> sizes)
  ∧ (∀ model, res = Ok model →
       (∃ front,
          layers model
          = front ++ [Dropout (dropout_prob cfg).1
                        (Some [Z.of_nat sequence_length; embedding_dim cfg]);
                      Graph graph; Dense (hidden_dims cfg);
                      Dropout (dropout_prob cfg).2 None;
                      Activation "relu"; Dense 1; Activation "sigmoid"]
          ∧ (front = [] ∨ ∃ e, front = [e] ∧ is_embedding e = true))
       ∧ after_graph (layers model)
         = [Dense (hidden_dims cfg); Dropout (dropout_prob cfg).2 None;
            Activation "relu"; Dense 1; Activation "sigmoid"])
  ∧ ((∀ r c, (keras_build r c).1 = Ok ()) → is_ok res = true).
Proof.
  intros res. subst res. split_and!.
  - intros graph_in sizes st convs Hloop.
    destruct (conv_loop_spec cfg graph_in sizes [] st) as (_ & _ & Hcs).
    by rewrite (Hcs _ Hloop).
  - intros model Hm.
    destruct (assemble_model_spec cfg vocabulary_size sequence_length embedding_weights
                graph s) as (_ & _ & Hb).
    rewrite (Hb _ Hm), build_model_layers. split.
    + eexists. split; [done|].
      destruct (model_variation cfg =? "CNN-static")%string; [by left|right; eauto].
    + by destruct (model_variation cfg =? "CNN-static")%string.
  - apply assemble_model_returns.
Qed.

(** The model of the CNN-rand variant over the graph of the five-token
    reviews. *)
Lemma model_layer_order_witness :
  let s := @State Reviews.ext ∅ 0 [] in
  let cfg := configured "CNN-rand" true 7 in
  let graph_in := Input [5; 100]%Z in
  let graph :=
    Model graph_in
      (Merge "concat"
         [Flatten (MaxPooling1D 2 (Convolution1D 150 3 "valid" "relu" 1 graph_in));
          Flatten (MaxPooling1D 2 (Convolution1D 150 4 "valid" "relu" 1 graph_in))]) in
  let model :=
    Sequential
      [Embedding 4 100 5 None; Dropout (1 # 4)%Q (Some [5; 100]%Z); Graph graph;
       Dense 150; Dropout (1 # 2)%Q None; Activation "relu"; Dense 1;
       Activation "sigmoid"]
      (Some ("binary_crossentropy", "rmsprop", ["accuracy"])) in
  (assemble_graph cfg 5 s).2 = Ok graph
  ∧ (assemble_model cfg 4 5 None graph s).2 = Ok model
  ∧ after_graph (layers model)
    = [Dense (hidden_dims cfg); Dropout (dropout_prob cfg).2 None; Activation "relu";
       Dense 1; Activation "sigmoid"].
Proof.
  intros s cfg graph_in graph model.
  assert (Hm : (assemble_model cfg 4 5 None graph s).2 = Ok model)
    by (vm_compute; reflexivity).
  split; [vm_compute; reflexivity|]. split; [exact Hm|].
  exact (proj2 (proj1 (proj2 (model_layer_order (Ext := Reviews.ext) cfg 4 5 None graph s))
                  model Hm)).
Defined.

(** ** File names *)

(** C7 fails for the architecture file: with ten epochs the weights go
    to [imdb_CNN-rand10.h5] but the architecture to
    [imdb_CNN-rand7_arch.json]; the architecture path does not depend
    on [num_epochs] at all.  A run with ten epochs on the five-token
    reviews ends normally and creates exactly these two files. *)
Theorem arch_path_ignores_num_epochs :
  arch_path (configured "CNN-rand" true 10) = "imdb_CNN-rand7_arch.json"
  ∧ weights_path (configured "CNN-rand" true 10) = "imdb_CNN-rand10.h5"
  ∧ (∀ variation epochs,
       arch_path (configured variation true epochs)
       = "imdb_" +:+ variation +:+ "7_arch.json"
       ∧ weights_path (configured variation true epochs)
         = "imdb_" +:+ variation +:+ str epochs +:+ ".h5")
  ∧ (let r := run (Ext := Reviews.ext) (configured "CNN-rand" true 10) 0 in
     r.2 = Ok ()
     ∧ ∃ json model,
         List.filter persists (out r.1)
         = [EWrite "imdb_CNN-rand7_arch.json" json;
            ESaveWeights model "imdb_CNN-rand10.h5"]).
Proof.
  split_and!; [done|done|done|]. split; [by vm_compute|].
  do 2 eexists. vm_compute. reflexivity.
Qed.

(** ** The evaluation-time word lookup *)

(** C3, as the claim has it, fails when the loaded model has no vector
    for the pad token: the handler's own lookup raises, and the
    exception leaves the loop. *)
Lemma lookup_without_pad_counterexample :
  let eb : gmap string vector := {[ "good" := [1; 0]%Q ]} in
  eb !! "film" = None
  ∧ lookup_word eb "film" = Raise (KeyError "<PAD/>")
  ∧ (embed_loop eb ["good"; "film"] [] (@State Demo.ext ∅ 0 [])).2
    = Raise (KeyError "<PAD/>").
Proof. by vm_compute. Qed.

Lemma lookup_word_spec (eb : gmap string vector) pad word :
  eb !! "<PAD/>" = Some pad → lookup_word eb word = Ok (default pad (eb !! word)).
Proof.
  intros Hpad. unfold lookup_word, eb_getitem. destruct (eb !! word); simpl; [done|].
  by rewrite Hpad.
Qed.

Section Lookup.
Context `{Ext : Externals}.

(** The loop binds only its own two names and leaves the generator and
    the effects alone. *)
Lemma embed_loop_frame (eb : gmap string vector) sentence x s :
  let s' := (embed_loop eb sentence x s).1 in
  out s' = out s ∧ rng s' = rng s
  ∧ ∀ k, k ≠ "word" → k ≠ "vect" → ns s' !! k = ns s !! k.
Proof.
  revert x s. induction sentence as [|word rest IH]; intros x [n r o]; simpl; [done|].
  exec. destruct (lookup_word eb word) as [vect|e]; simpl.
  - destruct (IH (x ++ [vect]) (State (<["vect":=PObj]> (<["word":=PStr word]> n)) r o))
      as (Ho & Hr & Hn).
    split_and!; [done|done|]. intros k Hw Hv. rewrite Hn by done. simpl.
    by rewrite !lookup_insert_ne.
  - split_and!; [done|done|]. intros k Hw Hv. by rewrite lookup_insert_ne.
Qed.

Lemma embed_loop_result (eb : gmap string vector) sentence x s :
  (embed_loop eb sentence x s).2
  = rbind (rmap (lookup_word eb) sentence) (λ vs, Ok (x ++ vs)).
Proof.
  revert x s. induction sentence as [|word rest IH]; intros x [n r o]; simpl.
  - by rewrite app_nil_r.
  - exec. destruct (lookup_word eb word) as [vect|e]; simpl; [|done].
    rewrite IH. destruct (rmap (lookup_word eb) rest); simpl; [|done].
    by rewrite <- app_assoc.
Qed.

(** C3, amended.  When the loaded model has a vector for the pad token,
    a word it does not know gets that vector, a word it knows gets its
    own, no lookup raises, and the loop returns one vector per word. *)
Theorem lookup_falls_back_to_pad (eb : gmap string vector) (pad : vector) :
  eb !! "<PAD/>" = Some pad →
  (∀ word, eb !! word = None → lookup_word eb word = Ok pad)
  ∧ (∀ word v, eb !! word = Some v → lookup_word eb word = Ok v)
  ∧ (∀ sentence x s,
       (embed_loop eb sentence x s).2
       = Ok (x ++ ((λ word, default pad (eb !! word)) <$> sentence))).
Proof.
  intros Hpad. split_and!.
  - intros word Hw. by rewrite (lookup_word_spec _ _ _ Hpad), Hw.
  - intros word v Hw. by rewrite (lookup_word_spec _ _ _ Hpad), Hw.
  - intros sentence x s. rewrite embed_loop_result.
    enough (rmap (lookup_word eb) sentence
            = Ok ((λ word, default pad (eb !! word)) <$> sentence)) as -> by done.
    induction sentence as [|word rest IH]; simpl; [done|].
    by rewrite (lookup_word_spec _ _ _ Hpad), IH.
Qed.

End Lookup.

(** On the small model, which has the pad vector and does not know
    "film". *)
Lemma lookup_falls_back_to_pad_witness :
  Demo.eb !! "<PAD/>" = Some [0; 0]%Q
  ∧ lookup_word Demo.eb "film" = Ok [0; 0]%Q
  ∧ (embed_loop Demo.eb ["good"; "film"; "<PAD/>"] [] (@State Demo.ext ∅ 0 [])).2
    = Ok [[1; 0]; [0; 0]; [0; 0]]%Q.
Proof.
  assert (Hpad : Demo.eb !! "<PAD/>" = Some [0; 0]%Q) by reflexivity.
  destruct (lookup_falls_back_to_pad (Ext := Demo.ext) Demo.eb _ Hpad) as (Hnone & _ & Hloop).
  split_and!.
  - exact Hpad.
  - apply Hnone. reflexivity.
  - rewrite Hloop. reflexivity.
Defined.

(** ** The evaluation branch *)

(** One case split of an evaluation run: the word loop is replaced by
    what [embed_loop_frame] and [embed_loop_result] say of it. *)
Ltac eval_step H :=
  first
    [ match type of H with
      | context [embed_loop ?eb ?sentence ?x ?st] =>
          let F := fresh "F" in
          let R := fresh "R" in
          pose proof (embed_loop_frame eb sentence x st) as F;
          pose proof (embed_loop_result eb sentence x st) as R;
          destruct (embed_loop eb sentence x st) as [[? ? ?] ?] eqn:?;
          cbn [fst snd ns rng out] in F, R;
          destruct F as (-> & -> & ?); cbn beta iota zeta in H
      end
    | case_step H ].

Section Evaluation.
Context `{Ext : Externals}.

(** Closes the case of a run that has ended: [H] equates the final
    state and result with the ones of the statement. *)
Ltac leaf_eval :=
  simplify_eq; cbn [ns out];
  split_and!;
  [ done
  | by frame_lookup
  | by frame_lookup
  | eexists; split_and!;
    [ rewrite <- ?app_assoc; cbn [app]; reflexivity | done | done ] ].

(** The evaluation branch from any state in which [y_shuffled] is not
    bound. *)
Lemma eval_branch_inv (cfg : config) ns0 r0 o0 s res :
  eval_branch cfg (State ns0 r0 o0) = (s, res) →
  ns0 !! "y_shuffled" = None →
  is_ok res = false
  ∧ ns s !! "y_shuffled" = None
  ∧ ns s !! "test_num" = ns0 !! "test_num"
  ∧ ∃ tr, out s = o0 ++ tr
          ∧ existsb computes_confusion tr = false
          ∧ (existsb prints_prediction tr = true → res = Raise (NameError "y_shuffled")).
Proof.
  intros H Hy. unfold eval_branch in H. exec in H.
  repeat (first
    [ match type of H with
      | context [of_option (NameError "y_shuffled") ?l] =>
          let Hl := fresh "Hl" in
          assert (l = None) as Hl by (frame_lookup; done);
          rewrite Hl in H; cbn [of_option] in H; cbn beta iota zeta in H
      end
    | eval_step H ]; try solve [leaf_eval]).
Qed.

(** C9.  With the training toggle off, the run never ends normally and
    never computes or shows the confusion matrix; neither [y_shuffled]
    nor [test_num] is bound when it ends (and the script never unbinds a
    name); and a run that gets as
    far as printing the prediction (every call before line 278
    returned) ends in the NameError for [y_shuffled]. *)
Theorem evaluation_reaches_name_error (cfg : config) (r0 : rng_state) :
  training cfg = false →
  let s := (run cfg r0).1 in
  let res := (run cfg r0).2 in
  is_ok res = false
  ∧ ns s !! "y_shuffled" = None
  ∧ ns s !! "test_num" = None
  ∧ existsb computes_confusion (out s) = false
  ∧ (existsb prints_prediction (out s) = true → res = Raise (NameError "y_shuffled")).
Proof.
  intros Htraining s res. subst s res.
  destruct (run cfg r0) as [s res] eqn:Hrun. cbn [fst snd].
  unfold run, script in Hrun. rewrite Htraining in Hrun. exec in Hrun.
  apply eval_branch_inv in Hrun as (Hres & Hy & Ht & tr & Hout & Hcm & Hpr).
  - rewrite Hy, Ht, Hout. split_and!; [done|done|by vm_compute| |].
    + rewrite existsb_app, Hcm. done.
    + rewrite existsb_app. done.
  - by vm_compute.
Qed.

End Evaluation.

(** The evaluation run in the small world: every call returns, the
    prediction is printed, and the run ends in the NameError. *)
Lemma evaluation_reaches_name_error_witness :
  let cfg := configured "CNN-non-static" false 7 in
  let s := (run (Ext := Demo.ext) cfg 0).1 in
  let res := (run (Ext := Demo.ext) cfg 0).2 in
  is_ok res = false
  ∧ ns s !! "y_shuffled" = None
  ∧ ns s !! "test_num" = None
  ∧ existsb computes_confusion (out s) = false
  ∧ existsb prints_prediction (out s) = true
  ∧ res = Raise (NameError "y_shuffled").
Proof.
  intros cfg s res.
  destruct (evaluation_reaches_name_error (Ext := Demo.ext) cfg 0 eq_refl)
    as (Hres & Hy & Ht & Hcm & Hpr).
  split_and!; [exact Hres|exact Hy|exact Ht|exact Hcm|reflexivity|].
  apply Hpr. reflexivity.
Defined.

(** ** The joint shuffle *)

Lemma x_take_rows (x : xdata) idx xs :
  x_take x idx = Ok xs →
  x_len xs = length idx
  ∧ ∀ k i, idx !! k = Some i → x_row xs k = x_row x i ∧ is_Some (x_row x i).
Proof.
  destruct x as [r|r]; simpl; destruct (np_take r idx) as [r'|] eqn:Hr; simpl; try done;
    intros [= <-]; simpl; (split; [by eapply np_take_length|]);
    intros k i Hk; destruct (np_take_lookup _ _ _ _ _ Hr Hk) as (v & -> & ->); simpl; eauto.
Qed.

Section Shuffle.
Context `{Ext : Externals}.

(** C1.  When the shuffle returns, the index array it drew is a
    permutation of [0 .. len(y)-1], both results have [len(y)] rows, and
    row [i] of [x_shuffled] and entry [i] of [y_shuffled] are row [p[i]]
    of [x] and the argmax of row [p[i]] of [y] for the same [p]. *)
Theorem shuffle_keeps_pairs (x : xdata) (y : ydata) (s s' : state)
    (x_shuffled : xdata) (y_shuffled : list nat) :
  (∀ r a, (np_permutation r a).1 ≡ₚ a) →
  shuffle x y s = (s', Ok (x_shuffled, y_shuffled)) →
  let p := (np_permutation (rng s) (arange (length y))).1 in
  p ≡ₚ seq 0 (length y)
  ∧ x_len x_shuffled = length y
  ∧ length y_shuffled = length y
  ∧ ∀ i, i < length y →
      ∃ j row label,
        p !! i = Some j ∧ j < length y
        ∧ x_row x_shuffled i = x_row x j ∧ is_Some (x_row x j)
        ∧ y !! j = Some row ∧ argmax row = Ok label
        ∧ y_shuffled !! i = Some label.
Proof.
  intros Hperm H p. subst p. destruct s as [n r o].
  specialize (Hperm r (arange (length y))).
  unfold shuffle in H. exec in H. cbn [rng].
  destruct (np_permutation r (arange (length y))) as [p r'] eqn:Hp.
  cbn [fst] in *. cbn beta iota zeta in H. unfold arange in Hperm.
  destruct (x_take x p) as [xs|] eqn:Hx; cbn beta iota in H; [|done].
  destruct (np_take y p) as [y_rows|] eqn:Hy; cbn beta iota in H; [|done].
  destruct (argmax_rows y_rows) as [ys|] eqn:Ha; cbn beta iota in H; [|done].
  simplify_eq.
  assert (Hlen : length p = length y).
  { by rewrite (Permutation_length Hperm), length_seq. }
  destruct (x_take_rows _ _ _ Hx) as (Hxl & Hxr).
  split_and!.
  - done.
  - by rewrite Hxl.
  - by rewrite (rmap_Ok_length _ _ _ Ha), (np_take_length _ _ _ Hy).
  - intros i Hi.
    destruct (lookup_lt_is_Some_2 p i) as [j Hj]; [lia|].
    assert (j < length y) as Hjy.
    { assert (j ∈ seq 0 (length y)) as Hin.
      { rewrite <- Hperm. by eapply list_elem_of_lookup_2. }
      apply elem_of_seq in Hin. lia. }
    destruct (np_take_lookup _ _ _ _ _ Hy Hj) as (row & Hrow & Hyj).
    destruct (rmap_Ok_lookup _ _ _ _ _ Ha Hrow) as (label & Hl & Harg).
    destruct (Hxr _ _ Hj) as (Hrow_eq & Hsome).
    exists j, row, label. split_and!; done.
Qed.

End Shuffle.

(** The small world's generator meets numpy's contract. *)
Lemma rotate_perm {A} n (l : list A) : rotate n l ≡ₚ l.
Proof.
  unfold rotate. rewrite Permutation_app_comm. by rewrite take_drop.
Qed.

(** The shuffle of the three-review corpus under the small world's
    rotation. *)
Lemma shuffle_keeps_pairs_witness :
  let x := XIds Demo.corpus_x in
  let y := Demo.corpus_y in
  let s := @State Demo.ext ∅ 2 [] in
  let p := [1; 2; 0] in
  (np_permutation (rng s) (arange (length y))).1 = p
  ∧ (shuffle x y s).2 = Ok (XIds [[2; 2; 1]; [0; 1; 1]; [1; 2; 0]], [0; 1; 1])
  ∧ p ≡ₚ seq 0 (length y)
  ∧ ∀ i, i < length y →
      ∃ j row label,
        p !! i = Some j ∧ j < length y
        ∧ x_row (XIds [[2; 2; 1]; [0; 1; 1]; [1; 2; 0]]) i = x_row x j
        ∧ is_Some (x_row x j)
        ∧ y !! j = Some row ∧ argmax row = Ok label
        ∧ [0; 1; 1] !! i = Some label.
Proof.
  intros x y s p.
  destruct (shuffle x y s) as [s' res] eqn:Hs.
  assert (res = Ok (XIds [[2; 2; 1]; [0; 1; 1]; [1; 2; 0]], [0; 1; 1])) as ->.
  { by injection Hs as _ <-. }
  destruct (shuffle_keeps_pairs (Ext := Demo.ext) x y s s' _ _
              (λ r a, rotate_perm (r + 2) a) Hs) as (Hp & _ & _ & Hpairs).
  split_and!; [reflexivity|reflexivity|exact Hp|exact Hpairs].
Defined.

(** ** The training branch *)

Tactic Notation "exec_train" "in" hyp(H) :=
  unfold train_branch, bind_parameters, load_training_data, init_embedding, shuffle in H;
  exec in H.

(** One case split of a training run: the assembly of the graph and of
    the model are replaced by what [assemble_graph_spec] and
    [assemble_model_spec] say of them. *)
Ltac train_step H :=
  first
    [ match type of H with
      | context [assemble_graph ?c ?n ?st] =>
          let F := fresh "F" in
          let Hbuilt := fresh "Hbuilt" in
          pose proof (assemble_graph_spec c n st) as F;
          destruct (assemble_graph c n st) as [[? ? ?] [?|?]] eqn:?;
          cbn [fst snd ns rng out] in F;
          destruct F as (-> & ? & Hbuilt);
          first [specialize (Hbuilt _ eq_refl) | clear Hbuilt];
          cbn beta iota zeta in H
      | context [assemble_model ?c ?v ?n ?w ?g ?st] =>
          let F := fresh "F" in
          let Hbuilt := fresh "Hbuilt" in
          pose proof (assemble_model_spec c v n w g st) as F;
          destruct (assemble_model c v n w g st) as [[? ? ?] [?|?]] eqn:?;
          cbn [fst snd ns rng out] in F;
          destruct F as (-> & ? & Hbuilt);
          first [specialize (Hbuilt _ eq_refl); subst | clear Hbuilt];
          cbn beta iota zeta in H
      end
    | case_step H ].

Section Training.
Context `{Ext : Externals}.

(** The branch starts by seeding the generator, so the state it was in
    before does not matter. *)
Lemma train_branch_reseeds (cfg : config) n r o :
  train_branch cfg (State n r o) = train_branch cfg (State n (np_seed 2) o).
Proof. reflexivity. Qed.

(** C10.  Two training runs that differ only in the state numpy's
    generator starts in are the same run: same effects (among them the
    arguments of [fit], i.e. the shuffled examples and labels), same
    result, same final namespace (among its entries [shuffle_indices]
    and [y_shuffled]) and same final generator state. *)
Theorem seeded_shuffle_deterministic (cfg : config) (r1 r2 : rng_state) :
  training cfg = true →
  run cfg r1 = run cfg r2
  ∧ ns (run cfg r1).1 !! "shuffle_indices" = ns (run cfg r2).1 !! "shuffle_indices"
  ∧ ns (run cfg r1).1 !! "y_shuffled" = ns (run cfg r2).1 !! "y_shuffled"
  ∧ out (run cfg r1).1 = out (run cfg r2).1.
Proof.
  intros Htraining.
  assert (Hrun : run cfg r1 = run cfg r2).
  { unfold run, script. rewrite Htraining. exec.
    rewrite train_branch_reseeds. symmetry. by rewrite train_branch_reseeds. }
  by rewrite Hrun.
Qed.

(** C2.  With a variant string that is none of the three, the dispatch
    raises [ValueError('Unknown model variation')] from any state and
    leaves the state as it was; the training run has then only printed
    two lines and called [load_data], and its result is that error (or
    the error of [load_data], when that call itself raises). *)
Theorem unknown_variation_raises (cfg : config) (r0 : rng_state) :
  training cfg = true →
  model_variation cfg ≠ "CNN-non-static" →
  model_variation cfg ≠ "CNN-static" →
  model_variation cfg ≠ "CNN-rand" →
  (∀ x vocabulary_inv s,
     init_embedding cfg x vocabulary_inv s
     = (s, Raise (ValueError "Unknown model variation")))
  ∧ out (run cfg r0).1
    = [EPrint ("Model variation is " +:+ model_variation cfg);
       EPrint "Loading data...";
       ELoadData pos_train_path neg_train_path]
  ∧ (run cfg r0).2
    = match load_data pos_train_path neg_train_path with
      | Ok _ => Raise (ValueError "Unknown model variation")
      | Raise e => Raise e
      end.
Proof.
  intros Htraining Hns Hs Hr.
  apply String.eqb_neq in Hns, Hs, Hr.
  assert (Hinit : ∀ x vocabulary_inv s,
            init_embedding cfg x vocabulary_inv s
            = (s, Raise (ValueError "Unknown model variation"))).
  { intros x vinv s. unfold init_embedding. by rewrite Hns, Hs, Hr. }
  split; [done|].
  destruct (run cfg r0) as [s res] eqn:Hrun. cbn [fst snd].
  unfold run, script in Hrun. rewrite Htraining in Hrun.
  unfold train_branch, bind_parameters, load_training_data in Hrun. exec in Hrun.
  destruct (load_data pos_train_path neg_train_path) as [[[[x y] voc] vinv]|e].
  - rewrite Hinit in Hrun. by simplify_eq.
  - by simplify_eq.
Qed.

End Training.

(** On reviews of three tokens the script as it stands does not get to
    a model: the graph cannot be built, and the run ends in that error
    with nothing written and nothing fitted. *)
Lemma short_reviews_run_raises :
  let r := run (Ext := Demo.ext) script_config 0 in
  r.2 = Raise (ValueError "The shape of the input to Flatten is not fully defined")
  ∧ milestones (out r.1) = [].
Proof. split; vm_compute; reflexivity. Qed.

(** A variant string the script does not know. *)
Lemma unknown_variation_raises_witness :
  let cfg := configured "CNN-dynamic" true 7 in
  (∀ x vocabulary_inv s,
     init_embedding (Ext := Demo.ext) cfg x vocabulary_inv s
     = (s, Raise (ValueError "Unknown model variation")))
  ∧ out (run (Ext := Demo.ext) cfg 0).1
    = [EPrint "Model variation is CNN-dynamic"; EPrint "Loading data...";
       ELoadData "./data/imdb_train.pos" "./data/imdb_train.neg"]
  ∧ (run (Ext := Demo.ext) cfg 0).2 = Raise (ValueError "Unknown model variation").
Proof.
  apply (unknown_variation_raises (Ext := Demo.ext) (configured "CNN-dynamic" true 7) 0);
    [reflexivity|discriminate..].
Defined.

(** Two runs of the script as it stands on the five-token reviews, from
    generator states 0 and 41: both end normally, with the same
    shuffle. *)
Lemma seeded_shuffle_deterministic_witness :
  (run (Ext := Reviews.ext) script_config 0).2 = Ok ()
  ∧ ns (run (Ext := Reviews.ext) script_config 0).1 !! "shuffle_indices"
    = Some (PInts [2; 0; 1]%Z)
  ∧ run (Ext := Reviews.ext) script_config 0 = run (Ext := Reviews.ext) script_config 41
  ∧ ns (run (Ext := Reviews.ext) script_config 0).1 !! "shuffle_indices"
    = ns (run (Ext := Reviews.ext) script_config 41).1 !! "shuffle_indices"
  ∧ ns (run (Ext := Reviews.ext) script_config 0).1 !! "y_shuffled"
    = ns (run (Ext := Reviews.ext) script_config 41).1 !! "y_shuffled"
  ∧ out (run (Ext := Reviews.ext) script_config 0).1
    = out (run (Ext := Reviews.ext) script_config 41).1.
Proof.
  split; [vm_compute; reflexivity|]. split; [vm_compute; reflexivity|].
  apply (seeded_shuffle_deterministic (Ext := Reviews.ext) script_config 0 41). reflexivity.
Defined.

(** ** Order of the artifact writes *)

Lemma last_ascii_app s t d : last_ascii (s +:+ t) d = last_ascii t (last_ascii s d).
Proof. revert d. induction s as [|c s IH]; intros d; simpl; [done|]. by rewrite IH. Qed.

(** The two artifacts are different files, whatever the variant and the
    epoch count. *)
Lemma arch_path_ne_weights_path cfg : arch_path cfg ≠ weights_path cfg.
Proof.
  intros Heq. apply (f_equal (λ s, last_ascii s Ascii.Space)) in Heq.
  unfold arch_path, weights_path in Heq. rewrite !last_ascii_app in Heq.
  discriminate Heq.
Qed.

(** C8, as the claim has it, fails on a run of the script as it stands:
    the run ends normally, its artifact writes and fit are, in order,
    the architecture write, [fit], the weights save; so the architecture
    is written with no [fit] before it. *)
Lemma architecture_written_before_fit_counterexample :
  let r := run (Ext := Reviews.ext) script_config 0 in
  r.2 = Ok ()
  ∧ (∃ model json x_shuffled y_shuffled,
       milestones (out r.1)
       = [EWrite "imdb_CNN-non-static7_arch.json" json;
          EFit model x_shuffled y_shuffled 32 7 (1 # 10)%Q;
          ESaveWeights model "imdb_CNN-non-static7.h5"])
  ∧ created_after_fit (out r.1) = false.
Proof.
  split_and!; [by vm_compute| |by vm_compute].
  do 4 eexists. vm_compute. reflexivity.
Qed.

Ltac leaf_order :=
  simplify_eq; cbn [fst snd out app milestones List.filter persists is_fit orb is_ok];
  repeat match goal with u : unit |- _ => destruct u end;
  first
    [ exists (Sequential [] None), EmptyString, (XIds []), []; cbv zeta;
      split_and!; [left; reflexivity | done | done | done]
    | eexists; eexists; exists (XIds []), []; cbv zeta;
      split_and!;
      [ right; left; reflexivity
      | intros _; split; [|do 2 eexists; eassumption]; reflexivity
      | done
      | done ]
    | do 4 eexists; cbv zeta;
      split_and!;
      [ first [ right; right; left; reflexivity | right; right; right; reflexivity ]
      | intros _; split; [|do 2 eexists; eassumption]; reflexivity
      | first [ done | intros _; do 2 eexists; eassumption ]
      | first [ done | reflexivity ] ] ].

Section Persistence.
Context `{Ext : Externals}.

(** C8, amended.  In a training run the architecture description is
    written once, after the model is compiled and before [fit] is
    called; the weights are saved once, to a different file, only after
    [fit] has returned; nothing is written after that.  So the artifact
    writes and the call of [fit] are always an initial part of:
    architecture write, fit, weights save, and all three when the run
    ends normally. *)
Theorem artifacts_written_once_in_order (cfg : config) (r0 : rng_state) :
  training cfg = true →
  arch_path cfg ≠ weights_path cfg
  ∧ ∃ model json x_shuffled y_shuffled,
      let arch := EWrite (arch_path cfg) json in
      let fitting := EFit model x_shuffled y_shuffled (batch_size cfg) (num_epochs cfg)
                       (val_split cfg) in
      let weights := ESaveWeights model (weights_path cfg) in
      let ms := milestones (out (run cfg r0).1) in
      (ms = [] ∨ ms = [arch] ∨ ms = [arch; fitting] ∨ ms = [arch; fitting; weights])
      ∧ (ms ≠ [] →
         compiled model = Some ("binary_crossentropy", "rmsprop", ["accuracy"])
         ∧ ∃ r r', to_json r model = (Ok json, r'))
      ∧ (ms = [arch; fitting; weights] →
         ∃ r r', fit r model x_shuffled y_shuffled (batch_size cfg) (num_epochs cfg)
                   (val_split cfg) = (Ok (), r'))
      ∧ (is_ok (run cfg r0).2 = true → ms = [arch; fitting; weights]).
Proof.
  intros Htraining. split; [apply arch_path_ne_weights_path|].
  destruct (run cfg r0) as [s res] eqn:Hrun. cbn [fst snd].
  unfold run, script in Hrun. rewrite Htraining in Hrun. exec_train in Hrun.
  repeat (train_step Hrun; try solve [leaf_order]).
Qed.

End Persistence.

(** The run of the script as it stands on the five-token reviews: it
    ends normally, so all three are there. *)
Lemma artifacts_written_once_in_order_witness :
  let cfg := script_config in
  let r := run (Ext := Reviews.ext) cfg 0 in
  r.2 = Ok ()
  ∧ arch_path cfg ≠ weights_path cfg
  ∧ ∃ model json x_shuffled y_shuffled,
      let arch := EWrite (arch_path cfg) json in
      let fitting := EFit model x_shuffled y_shuffled (batch_size cfg) (num_epochs cfg)
                       (val_split cfg) in
      let weights := ESaveWeights model (weights_path cfg) in
      let ms := milestones (out r.1) in
      (ms = [] ∨ ms = [arch] ∨ ms = [arch; fitting] ∨ ms = [arch; fitting; weights])
      ∧ (ms ≠ [] →
         compiled model = Some ("binary_crossentropy", "rmsprop", ["accuracy"])
         ∧ ∃ r r', to_json (Externals := Reviews.ext) r model = (Ok json, r'))
      ∧ (ms = [arch; fitting; weights] →
         ∃ r r', fit (Externals := Reviews.ext) r model x_shuffled y_shuffled
                   (batch_size cfg) (num_epochs cfg) (val_split cfg) = (Ok (), r'))
      ∧ (is_ok r.2 = true → ms = [arch; fitting; weights]).
Proof.
  split; [vm_compute; reflexivity|].
  apply (artifacts_written_once_in_order (Ext := Reviews.ext) script_config 0). reflexivity.
Defined.

(** ** The static variant *)

(** X6.  What the rewrite produces: one row of vectors per row of ids, each
    id replaced by the row of the first weight matrix it indexes. *)
Lemma rewrite_static_spec (embedding_weights : list matrix) (x : list (list nat)) rewritten :
  rewrite_static embedding_weights x = Ok rewritten →
  ∃ w rows,
    embedding_weights !! 0 = Some w ∧ rewritten = XVecs rows
    ∧ length rows = length x
    ∧ ∀ i ids, x !! i = Some ids →
        ∃ vecs, rows !! i = Some vecs ∧ length vecs = length ids
                ∧ ∀ j id, ids !! j = Some id →
                    ∃ v, vecs !! j = Some v ∧ w !! id = Some v.
Proof.
  unfold rewrite_static, embed_ids.
  destruct (embedding_weights !! 0) as [w|]; simpl; [|done].
  destruct (rmap _ x) as [rows|] eqn:Hrows; simpl; [|done].
  intros [= <-]. exists w, rows. split_and!; [done|done|by eapply rmap_Ok_length|].
  intros i ids Hi. destruct (rmap_Ok_lookup _ _ _ _ _ Hrows Hi) as (vecs & Hv & Ht).
  exists vecs. split_and!; [done|by eapply np_take_length|].
  intros j id Hj. by eapply np_take_lookup.
Qed.

Lemma build_model_embedding cfg vocabulary_size sequence_length embedding_weights graph :
  existsb is_embedding
    (layers (build_model cfg vocabulary_size sequence_length embedding_weights graph))
  = negb (model_variation cfg =? "CNN-static")%string.
Proof.
  rewrite build_model_layers. by destruct (model_variation cfg =? "CNN-static")%string.
Qed.

Ltac leaf_static Hmv :=
  simplify_eq; cbn [fst snd out app];
  repeat (constructor;
          [ first [ exact I
                  | split;
                    [ by rewrite build_model_embedding, Hmv
                    | do 8 eexists; split_and!; first [eassumption | reflexivity] ] ] | ]);
  constructor.

Section Static.
Context `{Ext : Externals}.

(** C6.  In a training run of the CNN-static variant, the model every
    call of [fit] receives has no Embedding layer, and the examples it
    receives are rows of the array obtained by indexing the first
    weight matrix of [train_word2vec] with the loaded token ids, once
    (what that indexing yields is [rewrite_static_spec]).  For any
    variant, the model has an Embedding layer exactly when the variant
    is not CNN-static. *)
Theorem static_rewrites_once_no_embedding (cfg : config) (r0 : rng_state) :
  training cfg = true →
  model_variation cfg = "CNN-static" →
  Forall (λ e,
      match e with
      | EFit model x_shuffled _ _ _ _ =>
          existsb is_embedding (layers model) = false
          ∧ ∃ x y vocabulary vocabulary_inv embedding_weights r' rewritten p,
              load_data pos_train_path neg_train_path
              = Ok (x, y, vocabulary, vocabulary_inv)
              ∧ train_word2vec (np_seed 2) x vocabulary_inv "CNN-static"
                  (embedding_dim cfg) (min_word_count cfg) (context cfg)
                = (Ok embedding_weights, r')
              ∧ rewrite_static embedding_weights x = Ok rewritten
              ∧ x_take rewritten p = Ok x_shuffled
      | _ => True
      end) (out (run cfg r0).1)
  ∧ (∀ cfg' vocabulary_size sequence_length embedding_weights graph,
       existsb is_embedding
         (layers (build_model cfg' vocabulary_size sequence_length embedding_weights graph))
       = negb (model_variation cfg' =? "CNN-static")%string).
Proof.
  intros Htraining Hmv. split; [|intros; apply build_model_embedding].
  destruct (run cfg r0) as [s res] eqn:Hrun. cbn [fst snd].
  unfold run, script in Hrun. rewrite Htraining in Hrun.
  unfold train_branch, bind_parameters, load_training_data, init_embedding, shuffle in Hrun.
  cbv zeta in Hrun. rewrite !Hmv in Hrun.
  cbn [String.eqb Ascii.eqb Bool.eqb orb andb] in Hrun.
  exec in Hrun.
  repeat (train_step Hrun; try solve [leaf_static Hmv]).
Qed.

End Static.

(** The CNN-static run on the five-token reviews does call [fit], and
    ends normally. *)
Lemma static_rewrites_once_no_embedding_witness :
  let cfg := configured "CNN-static" true 7 in
  (run (Ext := Reviews.ext) cfg 0).2 = Ok ()
  ∧ existsb is_fit (out (run (Ext := Reviews.ext) cfg 0).1) = true
  ∧ Forall (λ e,
      match e with
      | EFit model x_shuffled _ _ _ _ =>
          existsb is_embedding (layers model) = false
          ∧ ∃ x y vocabulary vocabulary_inv embedding_weights r' rewritten p,
              load_data (Externals := Reviews.ext) pos_train_path neg_train_path
              = Ok (x, y, vocabulary, vocabulary_inv)
              ∧ train_word2vec (Externals := Reviews.ext) (np_seed 2) x vocabulary_inv
                  "CNN-static" (embedding_dim cfg) (min_word_count cfg) (context cfg)
                = (Ok embedding_weights, r')
              ∧ rewrite_static embedding_weights x = Ok rewritten
              ∧ x_take rewritten p = Ok x_shuffled
      | _ => True
      end) (out (run (Ext := Reviews.ext) cfg 0).1)
  ∧ (∀ cfg' vocabulary_size sequence_length embedding_weights graph,
       existsb is_embedding
         (layers (build_model cfg' vocabulary_size sequence_length embedding_weights graph))
       = negb (model_variation cfg' =? "CNN-static")%string).
Proof.
  split; [vm_compute; reflexivity|]. split; [vm_compute; reflexivity|].
  apply (static_rewrites_once_no_embedding (Ext := Reviews.ext)
           (configured "CNN-static" true 7) 0); reflexivity.
Defined.

(** * Further properties of the script *)

(** ** The numpy operations *)

Lemma rmap_is_ok {A B} (f : A → result B) l :
  is_ok (rmap f l) = true ↔ Forall (λ a, is_ok (f a) = true) l.
Proof.
  induction l as [|a l IH]; simpl; [by split|].
  rewrite Forall_cons. destruct (f a); simpl; [|by split; [|intros []]].
  destruct (rmap f l); simpl in *.
  - split; [intros _; split; [done|by apply IH]|done].
  - split; [done|]. intros [_ H]. by apply IH.
Qed.

(** X1.  Fancy indexing returns exactly when every index is within the
    array, and raises IndexError otherwise. *)
Theorem np_take_ok_iff {A} (a : list A) (idx : list nat) :
  (is_ok (np_take a idx) = true ↔ Forall (λ i, i < length a) idx)
  ∧ (is_ok (np_take a idx) = false → np_take a idx = Raise IndexError).
Proof.
  split.
  - unfold np_take. rewrite rmap_is_ok. apply Forall_iff. intros i.
    destruct (a !! i) eqn:Hi; simpl.
    + apply lookup_lt_Some in Hi. naive_solver.
    + apply lookup_ge_None in Hi. split; [done|lia].
  - unfold np_take. induction idx as [|i idx IH]; simpl; [done|].
    destruct (a !! i); simpl; [|done].
    destruct (rmap _ idx); simpl in *; [done|]. intros _. by rewrite IH.
Qed.

Lemma argmax_from_spec (pre rest : list Z) (best_i : nat) (best : Z) :
  pre !! best_i = Some best →
  (∀ j w, pre !! j = Some w → (w ≤ best)%Z) →
  (∀ j w, pre !! j = Some w → j < best_i → (w < best)%Z) →
  ∃ v, (pre ++ rest) !! argmax_from (length pre) best_i best rest = Some v
       ∧ (∀ j w, (pre ++ rest) !! j = Some w → (w ≤ v)%Z)
       ∧ (∀ j w, (pre ++ rest) !! j = Some w →
            j < argmax_from (length pre) best_i best rest → (w < v)%Z).
Proof.
  revert pre best_i best. induction rest as [|v rest IH]; intros pre best_i best Hb Hmax Hfirst.
  - simpl. rewrite app_nil_r. eauto.
  - simpl. rewrite (cons_middle v pre rest), app_assoc.
    assert (Hlen : S (length pre) = length (pre ++ [v])) by (rewrite length_app; simpl; lia).
    rewrite Hlen. destruct (Z.ltb_spec best v).
    + apply IH.
      * by rewrite lookup_app_r, Nat.sub_diag.
      * intros j w Hj. apply lookup_app_Some in Hj as [Hj|[_ Hj]].
        -- specialize (Hmax _ _ Hj). lia.
        -- apply list_lookup_singleton_Some in Hj as [_ <-]. lia.
      * intros j w Hj Hlt. rewrite lookup_app_l in Hj by done.
        specialize (Hmax _ _ Hj). lia.
    + apply IH.
      * rewrite lookup_app_l; [done|]. by eapply lookup_lt_Some.
      * intros j w Hj. apply lookup_app_Some in Hj as [Hj|[_ Hj]].
        -- by eapply Hmax.
        -- apply list_lookup_singleton_Some in Hj as [_ <-]. lia.
      * intros j w Hj Hlt. apply lookup_lt_Some in Hb as Hbi.
        rewrite lookup_app_l in Hj by lia. by eapply Hfirst.
Qed.

(** X2.  The label collapse picks the first maximal entry of the row: the
    index is within the row, no entry is larger, and every entry before
    it is strictly smaller. *)
Theorem argmax_first_maximum (row : list Z) (k : nat) :
  argmax row = Ok k →
  ∃ v, row !! k = Some v
       ∧ (∀ j w, row !! j = Some w → (w ≤ v)%Z)
       ∧ (∀ j w, row !! j = Some w → j < k → (w < v)%Z).
Proof.
  destruct row as [|v row]; simpl; [done|]. intros [= <-].
  apply (argmax_from_spec [v] row 0 v).
  - done.
  - intros [|j] w; simpl; [by intros [= ->]|done].
  - intros j w _ Hj. lia.
Qed.

(** On the one-hot rows of the loader: [[1, 0]] is class 0 and
    [[0, 1]] is class 1. *)
Lemma argmax_first_maximum_witness :
  argmax [0; 1; 1]%Z = Ok 1
  ∧ ∃ v, [0; 1; 1]%Z !! 1 = Some v
         ∧ (∀ j w, [0; 1; 1]%Z !! j = Some w → (w ≤ v)%Z)
         ∧ (∀ j w, [0; 1; 1]%Z !! j = Some w → j < 1 → (w < v)%Z).
Proof.
  split; [reflexivity|]. apply (argmax_first_maximum [0; 1; 1]%Z 1). reflexivity.
Defined.

Lemma foldl_max_spec (n : nat) (l : list nat) :
  foldl Nat.max n l ∈ n :: l ∧ ∀ k, k ∈ n :: l → k ≤ foldl Nat.max n l.
Proof.
  revert n. induction l as [|a l IH]; intros n; simpl.
  - split; [by left|]. intros k Hk. apply list_elem_of_singleton in Hk. lia.
  - destruct (IH (n `max` a)) as (Hin & Hle). split.
    + apply elem_of_cons in Hin as [Hin|Hin]; [|by do 2 right].
      rewrite Hin. destruct (Nat.max_spec n a) as [[_ ->]|[_ ->]]; [right|]; by left.
    + intros k Hk. apply elem_of_cons in Hk as [->|Hk].
      * specialize (Hle (n `max` a) (list_elem_of_here _ _)). lia.
      * apply elem_of_cons in Hk as [->|Hk].
        -- specialize (Hle (n `max` a) (list_elem_of_here _ _)). lia.
        -- apply Hle. by right.
Qed.

(** X3.  [sequence_length] (line 161) is the length of some row and no row
    is longer; the expression raises ValueError exactly when there is
    no row. *)
Theorem max_len_spec (lens : list nat) :
  (∀ m, max_len lens = Ok m → m ∈ lens ∧ ∀ n, n ∈ lens → n ≤ m)
  ∧ (is_ok (max_len lens) = false ↔ lens = [])
  ∧ (lens = [] → max_len lens = Raise (ValueError "max() arg is an empty sequence")).
Proof.
  destruct lens as [|n lens]; simpl; split_and!; try done.
  intros m [= <-]. apply foldl_max_spec.
Qed.

(** ** The shuffle, beyond the pairing *)

Lemma np_take_fmap {A} (a : list A) idx b :
  np_take a idx = Ok b → Some <$> b = (λ i, a !! i) <$> idx.
Proof.
  unfold np_take. revert b. induction idx as [|i idx IH]; intros b; simpl.
  - by intros [= <-].
  - destruct (a !! i) as [v|]; simpl; [|done].
    destruct (rmap _ idx) as [b'|]; simpl; [|done].
    intros [= <-]. simpl. f_equal. by apply IH.
Qed.

Lemma lookup_seq_fmap {A} (a : list A) : (λ i, a !! i) <$> seq 0 (length a) = Some <$> a.
Proof.
  apply list_eq. intros i. rewrite !list_lookup_fmap.
  destruct (decide (i < length a)) as [Hi|Hi].
  - rewrite lookup_seq_lt by done. simpl.
    by destruct (lookup_lt_is_Some_2 a i Hi) as [v ->].
  - rewrite lookup_seq_ge by lia. by rewrite lookup_ge_None_2 by lia.
Qed.

(** Indexing an array with a permutation of all its indices permutes
    it. *)
Lemma np_take_permutation {A} (a : list A) idx b :
  idx ≡ₚ seq 0 (length a) → np_take a idx = Ok b → b ≡ₚ a.
Proof.
  intros Hperm Hb. apply np_take_fmap in Hb.
  assert (Some <$> b ≡ₚ Some <$> a) as Hsome.
  { rewrite Hb, Hperm. by rewrite lookup_seq_fmap. }
  apply Permutation_map_inv in Hsome as (c & Hc & Hac).
  apply (inj (fmap Some)) in Hc. subst c. by symmetry.
Qed.

Lemma x_take_rows_fmap (x : xdata) idx xs :
  x_take x idx = Ok xs → np_take (x_rows x) idx = Ok (x_rows xs).
Proof.
  assert (Hgen : ∀ (B : Type) (g : B → xrow) (r : list B) r',
            np_take r idx = Ok r' → np_take (g <$> r) idx = Ok (g <$> r')).
  { intros B g r. unfold np_take. induction idx as [|i idx IH]; intros r'; simpl.
    - by intros [= <-].
    - rewrite list_lookup_fmap. destruct (r !! i); simpl; [|done].
      destruct (rmap _ idx) as [r''|]; simpl; [|done].
      intros [= <-]. by rewrite (IH r''). }
  destruct x as [r|r]; simpl; destruct (np_take r idx) eqn:Hr; simpl; try done;
    intros [= <-]; simpl; by apply Hgen.
Qed.

Section ShuffleMore.
Context `{Ext : Externals}.

(** X4.  When [x] has as many rows as [y], the shuffle neither drops nor
    duplicates an example: the rows of [x_shuffled] are a permutation
    of the rows of [x], and [y_shuffled] is a permutation of the
    argmax labels of [y]. *)
Theorem shuffle_permutes_examples (x : xdata) (y : ydata) (s s' : state)
    (x_shuffled : xdata) (y_shuffled : list nat) :
  (∀ r a, (np_permutation r a).1 ≡ₚ a) →
  x_len x = length y →
  shuffle x y s = (s', Ok (x_shuffled, y_shuffled)) →
  x_rows x_shuffled ≡ₚ x_rows x
  ∧ ∃ labels, argmax_rows y = Ok labels ∧ y_shuffled ≡ₚ labels.
Proof.
  intros Hperm Hlen H. destruct s as [n r o].
  specialize (Hperm r (arange (length y))).
  unfold shuffle in H. exec in H.
  destruct (np_permutation r (arange (length y))) as [p r'] eqn:Hp.
  cbn [fst] in *. cbn beta iota zeta in H. unfold arange in Hperm.
  destruct (x_take x p) as [xs|] eqn:Hx; cbn beta iota in H; [|done].
  destruct (np_take y p) as [y_rows|] eqn:Hy; cbn beta iota in H; [|done].
  destruct (argmax_rows y_rows) as [ys|] eqn:Ha; cbn beta iota in H; [|done].
  simplify_eq. split.
  - apply x_take_rows_fmap in Hx. eapply np_take_permutation; [|done].
    assert (length (x_rows x) = length y) as ->; [|done].
    rewrite <- Hlen. destruct x; simpl; by rewrite length_fmap.
  - pose proof (np_take_permutation _ _ _ Hperm Hy) as Hrows.
    assert (Hall : Forall (λ row, is_ok (argmax row) = true) y).
    { rewrite <- Hrows. apply rmap_is_ok. unfold argmax_rows in Ha. by rewrite Ha. }
    apply rmap_is_ok in Hall. unfold argmax_rows.
    destruct (rmap argmax y) as [labels|] eqn:Hl; [|done].
    exists labels. split; [done|].
    assert (Some <$> y_shuffled ≡ₚ Some <$> labels) as Hsome.
    { assert (∀ rows ls, rmap argmax rows = Ok ls
                → Some <$> ls = (λ row, match argmax row with Ok k => Some k | _ => None end)
                                  <$> rows) as Hfm.
      { induction rows as [|row rows IH]; intros ls; simpl; [by intros [= <-]|].
        destruct (argmax row); simpl; [|done].
        destruct (rmap argmax rows); simpl; [|done].
        intros [= <-]. simpl. f_equal. by apply IH. }
      rewrite (Hfm _ _ Ha), (Hfm _ _ Hl). by rewrite Hrows. }
    apply Permutation_map_inv in Hsome as (c & Hc & Hlc).
    apply (inj (fmap Some)) in Hc. subst c. by symmetry.
Qed.

(** X5.  The shuffle returns exactly when [x] has at least as many rows as
    [y] and no label row is empty. *)
Theorem shuffle_ok_iff (x : xdata) (y : ydata) (s : state) :
  (∀ r a, (np_permutation r a).1 ≡ₚ a) →
  is_ok (shuffle x y s).2 = true ↔ length y ≤ x_len x ∧ Forall (λ row, row ≠ []) y.
Proof.
  intros Hperm. destruct s as [n r o].
  specialize (Hperm r (arange (length y))).
  unfold shuffle. exec.
  destruct (np_permutation r (arange (length y))) as [p r'] eqn:Hp.
  cbn [fst] in *. cbn beta iota zeta. unfold arange in Hperm.
  assert (Hx : is_ok (x_take x p) = true ↔ length y ≤ x_len x).
  { assert (is_ok (x_take x p) = true ↔ Forall (λ i, i < x_len x) p) as ->.
    { destruct x as [rows|rows]; simpl;
        rewrite <- (proj1 (np_take_ok_iff rows p)); by destruct (np_take rows p). }
    rewrite Hperm, Forall_seq. split.
    - intros H. destruct (length y) as [|m] eqn:Hm; [lia|].
      specialize (H m). lia.
    - intros H j Hj. lia. }
  assert (Hy : is_ok (np_take y p) = true).
  { apply np_take_ok_iff. rewrite Hperm. apply Forall_seq. lia. }
  destruct (x_take x p) as [xs|] eqn:Htx; cbn beta iota.
  2:{ simpl. split; [done|]. intros [Hle _]. by apply Hx in Hle. }
  destruct (np_take y p) as [y_rows|] eqn:Hty; [|done]. cbn beta iota.
  pose proof (np_take_permutation _ _ _ Hperm Hty) as Hrows.
  assert (Ha : is_ok (argmax_rows y_rows) = true ↔ Forall (λ row, row ≠ []) y).
  { unfold argmax_rows. rewrite rmap_is_ok, Hrows. apply Forall_iff.
    intros [|v row]; simpl; [|by split]. split; [done|]. intros Hne. by destruct Hne. }
  destruct (argmax_rows y_rows) as [ys|] eqn:Hta; cbn beta iota; simpl.
  - split; [|done]. intros _. split; [by apply Hx|by apply Ha].
  - split; [done|]. intros [_ Hne]. by apply Ha in Hne.
Qed.

End ShuffleMore.

(** The shuffle of the three-review corpus keeps its three examples. *)
Lemma shuffle_permutes_examples_witness :
  let x := XIds Demo.corpus_x in
  let y := Demo.corpus_y in
  let s := @State Demo.ext ∅ 2 [] in
  (shuffle x y s).2 = Ok (XIds [[2; 2; 1]; [0; 1; 1]; [1; 2; 0]], [0; 1; 1])
  ∧ x_rows (XIds [[2; 2; 1]; [0; 1; 1]; [1; 2; 0]]) ≡ₚ x_rows x
  ∧ ∃ labels, argmax_rows y = Ok labels ∧ [0; 1; 1] ≡ₚ labels.
Proof.
  intros x y s.
  destruct (shuffle x y s) as [s' res] eqn:Hs.
  assert (res = Ok (XIds [[2; 2; 1]; [0; 1; 1]; [1; 2; 0]], [0; 1; 1])) as ->.
  { by injection Hs as _ <-. }
  split; [reflexivity|].
  exact (shuffle_permutes_examples (Ext := Demo.ext) x y s s' _ _
           (λ r a, rotate_perm (r + 2) a) eq_refl Hs).
Defined.

(** In the small world: three examples with three labels shuffle, two
    examples with three labels do not. *)
Lemma shuffle_ok_iff_witness :
  (is_ok (shuffle (XIds Demo.corpus_x) Demo.corpus_y (@State Demo.ext ∅ 2 [])).2 = true
   ↔ length Demo.corpus_y ≤ x_len (XIds Demo.corpus_x)
     ∧ Forall (λ row, row ≠ []) Demo.corpus_y)
  ∧ (shuffle (XIds [[1]; [2]]) Demo.corpus_y (@State Demo.ext ∅ 2 [])).2 = Raise IndexError.
Proof.
  split; [|reflexivity].
  exact (shuffle_ok_iff (Ext := Demo.ext) (XIds Demo.corpus_x) Demo.corpus_y
           (@State Demo.ext ∅ 2 []) (λ r a, rotate_perm (r + 2) a)).
Defined.

(** ** The static rewrite *)

(** X7.  The rewrite returns exactly when [train_word2vec] returned at least
    one matrix and every token id is a row of the first one. *)
Theorem rewrite_static_ok_iff (embedding_weights : list matrix) (x : list (list nat)) :
  is_ok (rewrite_static embedding_weights x) = true
  ↔ ∃ w, embedding_weights !! 0 = Some w
         ∧ Forall (Forall (λ id, id < length w)) x.
Proof.
  unfold rewrite_static, embed_ids.
  destruct (embedding_weights !! 0) as [w|]; simpl.
  - assert (is_ok (rmap (λ row, np_take w row) x) = true
            ↔ Forall (Forall (λ id, id < length w)) x) as Hrows.
    { rewrite rmap_is_ok. apply Forall_iff. intros row. apply np_take_ok_iff. }
    destruct (rmap _ x); simpl in *.
    + split; [|done]. intros _. exists w. split; [done|]. by apply Hrows.
    + split; [done|]. intros (w' & [= <-] & Hall). by apply Hrows.
  - split; [done|]. by intros (w & ? & _).
Qed.

(** The rewrite of the small corpus with the small matrix. *)
Lemma rewrite_static_spec_witness :
  rewrite_static [Demo.word_vectors] Demo.corpus_x
  = Ok (XVecs [[[1; 0]; [0; 1]; [0; 0]]; [[0; 1]; [0; 1]; [1; 0]];
               [[0; 0]; [1; 0]; [1; 0]]]%Q)
  ∧ ∃ w rows,
      [Demo.word_vectors] !! 0 = Some w
      ∧ XVecs [[[1; 0]; [0; 1]; [0; 0]]; [[0; 1]; [0; 1]; [1; 0]];
               [[0; 0]; [1; 0]; [1; 0]]]%Q = XVecs rows
      ∧ length rows = length Demo.corpus_x
      ∧ ∀ i ids, Demo.corpus_x !! i = Some ids →
          ∃ vecs, rows !! i = Some vecs ∧ length vecs = length ids
                  ∧ ∀ j id, ids !! j = Some id →
                      ∃ v, vecs !! j = Some v ∧ w !! id = Some v.
Proof.
  split; [reflexivity|].
  apply (rewrite_static_spec [Demo.word_vectors] Demo.corpus_x). reflexivity.
Defined.

(** ** File names, continued *)

Lemma str_inj (n m : Z) : str n = str m → n = m.
Proof.
  unfold str. intros H. apply DecimalZ.to_int_inj.
  assert (Hnn : ∀ z, Z.to_int z ≠ Decimal.Pos Decimal.Nil
                     ∧ Z.to_int z ≠ Decimal.Neg Decimal.Nil).
  { intros [|q|q]; simpl; split; try done;
      intros [= Hq]; by apply DecimalPos.Unsigned.to_uint_nonnil in Hq. }
  apply (f_equal NilZero.int_of_string) in H.
  rewrite !NilZero.isi in H by apply Hnn. by injection H.
Qed.

Lemma string_app_length (a t : string) :
  String.length (a +:+ t) = String.length a + String.length t.
Proof. induction a as [|c a IH]; simpl; [done|]. by rewrite IH. Qed.

Lemma string_app_inj_r (a b t : string) : a +:+ t = b +:+ t → a = b.
Proof.
  revert b. induction a as [|c a IH]; intros [|d b]; simpl; intros H.
  - done.
  - apply (f_equal String.length) in H. simpl in H.
    rewrite !string_app_length in H. simpl in H. lia.
  - apply (f_equal String.length) in H. simpl in H.
    rewrite !string_app_length in H. simpl in H. lia.
  - injection H as -> H. f_equal. by apply IH.
Qed.

Lemma known_variation_prefix_inj (v1 v2 t1 t2 : string) :
  known_variation v1 → known_variation v2 → v1 +:+ t1 = v2 +:+ t2 → v1 = v2.
Proof.
  intros [H1|[H1|H1]] [H2|[H2|H2]] H; subst v1 v2; try done; simpl in H; discriminate H.
Qed.

(** X8.  The evaluation branch reads the architecture file the training
    branch writes, whatever the configuration; it loads the weights
    file the training branch saves exactly when [num_epochs] is 7. *)
Theorem evaluation_loads_trained_files (cfg : config) :
  eval_arch_path cfg = arch_path cfg
  ∧ (eval_weights_path cfg = weights_path cfg ↔ num_epochs cfg = 7%Z).
Proof.
  split; [done|]. unfold eval_weights_path, weights_path. split.
  - intros H. apply (inj (String.app "imdb_")) in H.
    apply (inj (String.app (model_variation cfg))) in H.
    change "7.h5" with ("7" +:+ ".h5") in H. apply string_app_inj_r in H.
    apply str_inj. by rewrite <- H.
  - by intros ->.
Qed.

(** X9.  Among the configurations whose variant the dispatch accepts, the
    artifact names determine the run: two configurations that write the
    same architecture file have the same variant, and two that save the
    same weights file have the same variant and the same epoch count. *)
Theorem artifact_names_determine_run (cfg1 cfg2 : config) :
  known_variation (model_variation cfg1) →
  known_variation (model_variation cfg2) →
  (arch_path cfg1 = arch_path cfg2 → model_variation cfg1 = model_variation cfg2)
  ∧ (weights_path cfg1 = weights_path cfg2 →
     model_variation cfg1 = model_variation cfg2 ∧ num_epochs cfg1 = num_epochs cfg2).
Proof.
  intros Hk1 Hk2. split.
  - unfold arch_path. intros H. apply (inj (String.app "imdb_")) in H.
    by apply string_app_inj_r in H.
  - unfold weights_path. intros H. apply (inj (String.app "imdb_")) in H.
    pose proof (known_variation_prefix_inj _ _ _ _ Hk1 Hk2 H) as Hmv.
    split; [done|]. rewrite Hmv in H.
    apply (inj (String.app (model_variation cfg2))) in H.
    apply string_app_inj_r in H. by apply str_inj.
Qed.

(** The script's configuration against the same with the static
    variant and twelve epochs. *)
Lemma artifact_names_determine_run_witness :
  let cfg1 := script_config in
  let cfg2 := configured "CNN-static" true 12 in
  weights_path cfg1 = "imdb_CNN-non-static7.h5"
  ∧ weights_path cfg2 = "imdb_CNN-static12.h5"
  ∧ (arch_path cfg1 = arch_path cfg2 → model_variation cfg1 = model_variation cfg2)
  ∧ (weights_path cfg1 = weights_path cfg2 →
     model_variation cfg1 = model_variation cfg2 ∧ num_epochs cfg1 = num_epochs cfg2).
Proof.
  split; [reflexivity|]. split; [reflexivity|].
  apply (artifact_names_determine_run script_config (configured "CNN-static" true 12)).
  - left. reflexivity.
  - right. left. reflexivity.
Defined.

(** ** The other two variants *)

Ltac leaf_variant Hmv :=
  simplify_eq; cbn [fst snd out app];
  repeat (constructor;
          [ first [ exact I
                  | do 6 eexists; split_and!;
                    first [ eassumption | reflexivity
                          | by rewrite build_model_layers, Hmv ] ] | ]);
  constructor.

Section Variants.
Context `{Ext : Externals}.

(** X10.  For CNN-rand the training run never calls [train_word2vec], the
    examples given to [fit] are rows of the loaded token ids, and the
    model starts with an Embedding layer of [len(vocabulary)] rows that
    has no initial weights. *)
Theorem rand_trains_no_word2vec (cfg : config) (r0 : rng_state) :
  training cfg = true →
  model_variation cfg = "CNN-rand" →
  Forall (λ e,
      match e with
      | ETrainWord2Vec _ _ _ _ => False
      | EFit model x_shuffled _ _ _ _ =>
          ∃ x y vocabulary vocabulary_inv sequence_length p,
            load_data pos_train_path neg_train_path
            = Ok (x, y, vocabulary, vocabulary_inv)
            ∧ x_take (XIds x) p = Ok x_shuffled
            ∧ max_len (x_row_lens x_shuffled) = Ok sequence_length
            ∧ head (layers model)
              = Some (Embedding (Z.of_nat (size vocabulary)) (embedding_dim cfg)
                        (Z.of_nat sequence_length) None)
      | _ => True
      end) (out (run cfg r0).1).
Proof.
  intros Htraining Hmv.
  destruct (run cfg r0) as [s res] eqn:Hrun. cbn [fst snd].
  unfold run, script in Hrun. rewrite Htraining in Hrun.
  unfold train_branch, bind_parameters, load_training_data, init_embedding, shuffle in Hrun.
  cbv zeta in Hrun. rewrite !Hmv in Hrun.
  cbn [String.eqb Ascii.eqb Bool.eqb orb andb] in Hrun.
  exec in Hrun.
  repeat (train_step Hrun; try solve [leaf_variant Hmv]).
Qed.

(** X11.  For CNN-non-static the examples given to [fit] are rows of the
    loaded token ids, and the model starts with an Embedding layer
    whose initial weights are what [train_word2vec] returned. *)
Theorem non_static_seeds_embedding (cfg : config) (r0 : rng_state) :
  training cfg = true →
  model_variation cfg = "CNN-non-static" →
  Forall (λ e,
      match e with
      | EFit model x_shuffled _ _ _ _ =>
          ∃ x y vocabulary vocabulary_inv sequence_length p,
            load_data pos_train_path neg_train_path
            = Ok (x, y, vocabulary, vocabulary_inv)
            ∧ x_take (XIds x) p = Ok x_shuffled
            ∧ max_len (x_row_lens x_shuffled) = Ok sequence_length
            ∧ ∃ embedding_weights r',
                train_word2vec (np_seed 2) x vocabulary_inv "CNN-non-static"
                  (embedding_dim cfg) (min_word_count cfg) (context cfg)
                = (Ok embedding_weights, r')
                ∧ head (layers model)
                  = Some (Embedding (Z.of_nat (size vocabulary)) (embedding_dim cfg)
                            (Z.of_nat sequence_length) (Some embedding_weights))
      | _ => True
      end) (out (run cfg r0).1).
Proof.
  intros Htraining Hmv.
  destruct (run cfg r0) as [s res] eqn:Hrun. cbn [fst snd].
  unfold run, script in Hrun. rewrite Htraining in Hrun.
  unfold train_branch, bind_parameters, load_training_data, init_embedding, shuffle in Hrun.
  cbv zeta in Hrun. rewrite !Hmv in Hrun.
  cbn [String.eqb Ascii.eqb Bool.eqb orb andb] in Hrun.
  exec in Hrun.
  repeat (train_step Hrun;
          try solve [ simplify_eq; cbn [fst snd out app];
                      repeat (constructor;
                              [ first [ exact I
                                      | do 6 eexists; split_and!;
                                        [ reflexivity | eassumption | eassumption
                                        | do 2 eexists; split;
                                          [ eassumption
                                          | by rewrite build_model_layers, Hmv ] ] ] | ]);
                      constructor ]).
Qed.

End Variants.

(** The CNN-rand run on the five-token reviews does call [fit], and
    ends normally. *)
Lemma rand_trains_no_word2vec_witness :
  let cfg := configured "CNN-rand" true 7 in
  (run (Ext := Reviews.ext) cfg 0).2 = Ok ()
  ∧ existsb is_fit (out (run (Ext := Reviews.ext) cfg 0).1) = true
  ∧ Forall (λ e,
      match e with
      | ETrainWord2Vec _ _ _ _ => False
      | EFit model x_shuffled _ _ _ _ =>
          ∃ x y vocabulary vocabulary_inv sequence_length p,
            load_data (Externals := Reviews.ext) pos_train_path neg_train_path
            = Ok (x, y, vocabulary, vocabulary_inv)
            ∧ x_take (XIds x) p = Ok x_shuffled
            ∧ max_len (x_row_lens x_shuffled) = Ok sequence_length
            ∧ head (layers model)
              = Some (Embedding (Z.of_nat (size vocabulary)) (embedding_dim cfg)
                        (Z.of_nat sequence_length) None)
      | _ => True
      end) (out (run (Ext := Reviews.ext) cfg 0).1).
Proof.
  split; [vm_compute; reflexivity|]. split; [vm_compute; reflexivity|].
  apply (rand_trains_no_word2vec (Ext := Reviews.ext) (configured "CNN-rand" true 7) 0);
    reflexivity.
Defined.

(** The run of the script as it stands on the five-token reviews does
    call [fit], and ends normally. *)
Lemma non_static_seeds_embedding_witness :
  let cfg := script_config in
  (run (Ext := Reviews.ext) cfg 0).2 = Ok ()
  ∧ existsb is_fit (out (run (Ext := Reviews.ext) cfg 0).1) = true
  ∧ Forall (λ e,
      match e with
      | EFit model x_shuffled _ _ _ _ =>
          ∃ x y vocabulary vocabulary_inv sequence_length p,
            load_data (Externals := Reviews.ext) pos_train_path neg_train_path
            = Ok (x, y, vocabulary, vocabulary_inv)
            ∧ x_take (XIds x) p = Ok x_shuffled
            ∧ max_len (x_row_lens x_shuffled) = Ok sequence_length
            ∧ ∃ embedding_weights r',
                train_word2vec (Externals := Reviews.ext) (np_seed 2) x vocabulary_inv
                  "CNN-non-static" (embedding_dim cfg) (min_word_count cfg) (context cfg)
                = (Ok embedding_weights, r')
                ∧ head (layers model)
                  = Some (Embedding (Z.of_nat (size vocabulary)) (embedding_dim cfg)
                            (Z.of_nat sequence_length) (Some embedding_weights))
      | _ => True
      end) (out (run (Ext := Reviews.ext) cfg 0).1).
Proof.
  split; [vm_compute; reflexivity|]. split; [vm_compute; reflexivity|].
  apply (non_static_seeds_embedding (Ext := Reviews.ext) script_config 0); reflexivity.
Defined.

(** ** Runs that cannot build or size the model *)

Section Degenerate.
Context `{Ext : Externals}.

(** X12.  With an empty [filter_sizes] the graph cannot be built
    ([convs[0]] raises IndexError), so a training run never ends
    normally, writes no artifact and never calls [fit]. *)
Theorem no_filter_sizes_raises (cfg : config) (r0 : rng_state) :
  training cfg = true →
  filter_sizes cfg = [] →
  (∀ sequence_length, build_graph cfg sequence_length = Raise IndexError)
  ∧ is_ok (run cfg r0).2 = false
  ∧ milestones (out (run cfg r0).1) = [].
Proof.
  intros Htraining Hfs. split; [intros; by apply build_graph_no_filters|].
  destruct (run cfg r0) as [s res] eqn:Hrun. cbn [fst snd].
  unfold run, script in Hrun. rewrite Htraining in Hrun.
  exec_train in Hrun.
  repeat (train_step Hrun;
          try solve [ simplify_eq;
                      try match goal with
                          | Hg : build_graph _ _ = Ok _ |- _ =>
                              rewrite (build_graph_no_filters _ _ Hfs) in Hg; discriminate Hg
                          end;
                      by cbn [fst snd out app] ]).
Qed.

(** With no label row the shuffle has no example to return: when it
    returns, what it returns has no row. *)
Lemma shuffle_empty_inv (x : xdata) n r o s' res :
  (∀ r a, (np_permutation r a).1 ≡ₚ a) →
  shuffle x [] (State n r o) = (s', res) →
  out s' = o
  ∧ ∀ x_shuffled y_shuffled,
      res = Ok (x_shuffled, y_shuffled) → x_row_lens x_shuffled = [] ∧ y_shuffled = [].
Proof.
  intros Hperm H. specialize (Hperm r (arange (length (@nil (list Z))))).
  unfold shuffle in H. exec in H.
  destruct (np_permutation r (arange (length (@nil (list Z))))) as [p r'] eqn:Hp.
  cbn [fst] in *. cbn beta iota zeta in H.
  apply Permutation_nil_r in Hperm. subst p.
  destruct x as [rows|rows]; simpl in H; simplify_eq; split; try done;
    by intros ? ? [= <- <-].
Qed.

(** X13.  With a corpus that has no label row a training run never ends
    normally, writes no artifact and never calls [fit]: the shuffle has
    no example to return, and line 161 takes the maximum of the lengths
    of its rows. *)
Theorem empty_corpus_raises (cfg : config) (r0 : rng_state) x vocabulary vocabulary_inv :
  (∀ r a, (np_permutation r a).1 ≡ₚ a) →
  training cfg = true →
  load_data pos_train_path neg_train_path = Ok (x, [], vocabulary, vocabulary_inv) →
  is_ok (run cfg r0).2 = false
  ∧ milestones (out (run cfg r0).1) = [].
Proof.
  intros Hperm Htraining Hload.
  destruct (run cfg r0) as [s res] eqn:Hrun. cbn [fst snd].
  unfold run, script in Hrun. rewrite Htraining in Hrun.
  unfold train_branch, bind_parameters, load_training_data, init_embedding in Hrun.
  rewrite Hload in Hrun. exec in Hrun.
  repeat (first
    [ match type of Hrun with
      | context [shuffle ?x0 [] (State ?n0 ?r1 ?o0)] =>
          let Hs := fresh "Hs" in
          let Hrows := fresh "Hrows" in
          destruct (shuffle x0 [] (State n0 r1 o0)) as [[n' r' o'] [[xs ys]|e]] eqn:Hs;
          apply (shuffle_empty_inv _ _ _ _ _ _ Hperm) in Hs as (Ho & Hrows);
          cbn [out] in Ho; subst o'; cbn beta iota zeta in Hrun;
          [ destruct (Hrows _ _ eq_refl) as (Hlens & ->);
            rewrite Hlens in Hrun; cbn [max_len] in Hrun; cbn beta iota zeta in Hrun
          | clear Hrows ]
      end
    | case_step Hrun ]; try solve [simplify_eq; by cbn [fst snd out app]]).
Qed.

End Degenerate.

(** The script with [filter_sizes = ()] in the small world. *)
Lemma no_filter_sizes_raises_witness :
  let cfg := with_filters "CNN-rand" [] in
  (run (Ext := Demo.ext) cfg 0).2 = Raise IndexError
  ∧ (∀ sequence_length, build_graph cfg sequence_length = Raise IndexError)
  ∧ is_ok (run (Ext := Demo.ext) cfg 0).2 = false
  ∧ milestones (out (run (Ext := Demo.ext) cfg 0).1) = [].
Proof.
  split; [reflexivity|].
  apply (no_filter_sizes_raises (Ext := Demo.ext) (with_filters "CNN-rand" []) 0);
    reflexivity.
Defined.

(** The CNN-rand script on the corpus without reviews. *)
Lemma empty_corpus_raises_witness :
  let cfg := configured "CNN-rand" true 7 in
  is_ok (run (Ext := EmptyCorpus.ext) cfg 0).2 = false
  ∧ milestones (out (run (Ext := EmptyCorpus.ext) cfg 0).1) = [].
Proof.
  apply (empty_corpus_raises (Ext := EmptyCorpus.ext) (configured "CNN-rand" true 7) 0
           [] {[ "<PAD/>" := 0 ]} ["<PAD/>"]).
  - intros r a. apply rotate_perm.
  - reflexivity.
  - reflexivity.
Defined.

(** ** The two branches against each other *)

Lemma of_option_Ok {A} (e : exn) (o : option A) a : of_option e o = Ok a → o = Some a.
Proof. destruct o; simpl; by intros [= ->]. Qed.

Lemma rbind_app_nil {A} (r : result (list A)) a :
  Ok a = rbind r (λ vs, Ok ([] ++ vs)) → r = Ok a.
Proof. destruct r; simpl; by intros [= ->]. Qed.

Ltac leaf_names :=
  simplify_eq; cbn [fst snd ns is_ok];
  split;
  [ frame_lookup; by vm_compute
  | first [ by intros
          | intros _; frame_lookup; rewrite lookup_insert_eq; by eexists ] ].

Ltac leaf_first_sentence :=
  simplify_eq; cbn [fst snd out app];
  repeat match goal with
         | H : of_option _ _ = Ok _ |- _ => apply of_option_Ok in H
         | H : Ok _ = rbind _ _ |- _ => apply rbind_app_nil in H
         | H : rbind _ _ = Ok _ |- _ => symmetry in H; apply rbind_app_nil in H
         end;
  repeat (constructor;
          [ first [ exact I
                  | split;
                    [ reflexivity
                    | do 5 eexists; split_and!; first [eassumption | reflexivity] ] ] | ]);
  constructor.

Section Branches.
Context `{Ext : Externals}.

(** X14.  A training run makes none of the calls of the evaluation
    branch; an evaluation run makes none of the calls of the training
    branch (it loads no training data, trains no word vectors, writes
    no artifact, never calls [fit]). *)
Theorem branches_are_exclusive (cfg : config) (r0 : rng_state) :
  if training cfg
  then existsb evaluation_event (out (run cfg r0).1) = false
  else existsb training_event (out (run cfg r0).1) = false.
Proof.
  destruct (run cfg r0) as [s res] eqn:Hrun. cbn [fst snd].
  unfold run, script in Hrun. destruct (training cfg).
  - exec_train in Hrun.
    repeat (train_step Hrun; try solve [simplify_eq; by cbn [fst snd out app]]).
  - unfold eval_branch in Hrun. exec in Hrun.
    repeat (eval_step Hrun; try solve [simplify_eq; by cbn [fst snd out app]]).
Qed.

(** X15.  [test_num] is bound in no run, whichever branch it takes; and a run
    that ends normally (it is then a training run) has [y_shuffled]
    bound to an integer array. *)
Theorem test_num_never_bound (cfg : config) (r0 : rng_state) :
  ns (run cfg r0).1 !! "test_num" = None
  ∧ (is_ok (run cfg r0).2 = true →
     ∃ labels, ns (run cfg r0).1 !! "y_shuffled" = Some (PInts labels)).
Proof.
  destruct (run cfg r0) as [s res] eqn:Hrun. cbn [fst snd].
  unfold run, script in Hrun. destruct (training cfg).
  - exec_train in Hrun.
    repeat (train_step Hrun; try solve [leaf_names]).
  - exec in Hrun.
    apply eval_branch_inv in Hrun as (Hres & _ & Ht & _); [|by vm_compute].
    rewrite Ht, Hres. split; [by vm_compute|done].
Qed.

(** X16.  The evaluation branch predicts on the first padded sentence only:
    whenever it calls [predict_classes], the batch size is 1 and the
    input is the list of vectors looked up for the words of
    [sentences[0]]. *)
Theorem evaluation_predicts_first_sentence (cfg : config) (r0 : rng_state) :
  training cfg = false →
  Forall (λ e,
      match e with
      | EPredictClasses x batch =>
          batch = 1%Z
          ∧ ∃ eb sentences pad_size padded sentence,
              word2vec_load (word2vec_path cfg) = Ok eb
              ∧ pad_sentences sentences pad_size = Ok padded
              ∧ padded !! 0 = Some sentence
              ∧ rmap (lookup_word eb) sentence = Ok x
      | _ => True
      end) (out (run cfg r0).1).
Proof.
  intros Htraining.
  destruct (run cfg r0) as [s res] eqn:Hrun. cbn [fst snd].
  unfold run, script in Hrun. rewrite Htraining in Hrun.
  unfold eval_branch in Hrun. exec in Hrun.
  repeat (eval_step Hrun; try solve [leaf_first_sentence]).
Qed.

End Branches.

(** The evaluation run in the small world predicts on the three words
    of its first padded sentence. *)
Lemma evaluation_predicts_first_sentence_witness :
  let cfg := configured "CNN-non-static" false 7 in
  existsb prints_prediction (out (run (Ext := Demo.ext) cfg 0).1) = true
  ∧ Forall (λ e,
      match e with
      | EPredictClasses x batch =>
          batch = 1%Z
          ∧ ∃ eb sentences pad_size padded sentence,
              word2vec_load (Externals := Demo.ext) (word2vec_path cfg) = Ok eb
              ∧ pad_sentences (Externals := Demo.ext) sentences pad_size = Ok padded
              ∧ padded !! 0 = Some sentence
              ∧ rmap (lookup_word eb) sentence = Ok x
      | _ => True
      end) (out (run (Ext := Demo.ext) cfg 0).1).
Proof.
  split; [reflexivity|].
  apply (evaluation_predicts_first_sentence (Ext := Demo.ext)
           (configured "CNN-non-static" false 7) 0).
  reflexivity.
Defined.

(** ** [test_network] *)

Section TestNetworkProps.
Context `{Ext : Externals}.

(** X17.  [test_network] leaves the module namespace alone and writes
    nothing.  It returns a prediction only when the architecture file
    was read, parsed, the weights were loaded and the prediction was
    made, in that order, each Keras call starting from the generator
    state the one before left; the value is then what [predict_classes]
    gave with batch size 1.  When reading the architecture file fails,
    nothing is parsed, loaded or predicted and the generator is as it
    was. *)
Theorem test_network_effects (architecture weights : string) (data : list vector)
    (n : gmap string pyobj) (r : rng_state) (o : list event) :
  let s' := (test_network architecture weights data (State n r o)).1 in
  let res := (test_network architecture weights data (State n r o)).2 in
  ns s' = n
  ∧ ∃ tr, out s' = o ++ tr
          ∧ existsb persists tr = false
          ∧ (∀ pred, res = Ok pred →
               ∃ json model r1 r2,
                 file_read architecture = Ok json
                 ∧ model_from_json r json = (Ok model, r1)
                 ∧ load_weights r1 model weights = (Ok (), r2)
                 ∧ predict_classes r2 model data 1 = (Ok pred, rng s')
                 ∧ tr = [ERead architecture; EModelFromJson json; ELoadWeights weights;
                         EPredictClasses data 1])
          ∧ (∀ e, file_read architecture = Raise e →
               res = Raise e ∧ tr = [ERead architecture] ∧ rng s' = r).
Proof.
  intros s' res. subst s' res.
  destruct (test_network architecture weights data (State n r o)) as [s' res] eqn:H.
  cbn [fst snd]. unfold test_network in H. exec in H.
  repeat (case_step H;
          try solve [ simplify_eq; cbn [ns rng out];
                      repeat match goal with u : unit |- _ => destruct u end;
                      split; [done|];
                      eexists; split_and!;
                      [ rewrite <- ?app_assoc; cbn [app]; reflexivity
                      | done
                      | intros pred' Hp; simplify_eq; eauto 10
                      | intros e' He; by simplify_eq ] ]).
Qed.

End TestNetworkProps.

(** ** The word loop without the pad assumption *)

Section LoopTotal.
Context `{Ext : Externals}.

Lemma lookup_word_ok_iff (eb : gmap string vector) (word : string) :
  (is_ok (lookup_word eb word) = true
   ↔ is_Some (eb !! word) ∨ is_Some (eb !! "<PAD/>"))
  ∧ (is_ok (lookup_word eb word) = false → lookup_word eb word = Raise (KeyError "<PAD/>")).
Proof.
  unfold lookup_word, eb_getitem.
  destruct (eb !! word) as [v|]; simpl.
  - split; [|done]. split; [eauto|done].
  - destruct (eb !! "<PAD/>") as [pad|]; simpl.
    + split; [|done]. split; [eauto|done].
    + split; [|done]. split; [done|]. by intros [[? ?]|[? ?]].
Qed.

(** X18.  The word loop returns exactly when the model has the pad vector or
    knows every word of the sentence; when it raises, the exception is
    the KeyError of the pad token, and when it returns, it has appended
    one vector per word. *)
Theorem embed_loop_ok_iff (eb : gmap string vector) (sentence : list string)
    (x : list vector) (s : state) :
  (is_ok (embed_loop eb sentence x s).2 = true
   ↔ is_Some (eb !! "<PAD/>") ∨ Forall (λ word, is_Some (eb !! word)) sentence)
  ∧ (is_ok (embed_loop eb sentence x s).2 = false
     → (embed_loop eb sentence x s).2 = Raise (KeyError "<PAD/>"))
  ∧ (∀ vs, (embed_loop eb sentence x s).2 = Ok vs
     → length vs = length x + length sentence).
Proof.
  rewrite embed_loop_result. split_and!.
  - assert (is_ok (rbind (rmap (lookup_word eb) sentence) (λ vs, Ok (x ++ vs))) = true
            ↔ is_ok (rmap (lookup_word eb) sentence) = true) as ->.
    { by destruct (rmap _ sentence). }
    rewrite rmap_is_ok. split.
    + intros Hall. destruct (eb !! "<PAD/>") as [pad|] eqn:Hpad; [left; eauto|right].
      eapply Forall_impl; [exact Hall|]. intros word Hw.
      apply lookup_word_ok_iff in Hw as [Hw|Hw]; [done|]. rewrite Hpad in Hw.
      by destruct Hw.
    + intros [Hpad|Hall].
      * apply Forall_forall. intros word _. apply lookup_word_ok_iff. by right.
      * eapply Forall_impl; [exact Hall|]. intros word Hw.
        apply lookup_word_ok_iff. by left.
  - induction sentence as [|word rest IH]; simpl; [done|].
    destruct (lookup_word eb word) as [v|e] eqn:Hw; simpl.
    + destruct (rmap (lookup_word eb) rest); simpl in *; [done|]. intros _.
      by rewrite (IH eq_refl).
    + intros _. pose proof (proj2 (lookup_word_ok_iff eb word)) as Hk.
      rewrite Hw in Hk. by injection (Hk eq_refl) as ->.
  - intros vs. destruct (rmap (lookup_word eb) sentence) as [added|] eqn:Ha; simpl; [|done].
    intros [= <-]. rewrite length_app. f_equal. by eapply rmap_Ok_length.
Qed.

End LoopTotal.
